(** * Al Jazeera news scraper: article extraction, collection loop, report

    A shallow embedding of [libs/Article.py], [libs/NewsScraper.py] and
    [tasks.py].  Python text is modelled as [string] (ASCII text), Python
    exceptions as the [Raise] branch of [result], [None] as [option]'s [None].
    The browser is an oracle: what it finds for each lookup is data of the
    run. *)

From Stdlib Require Import String Ascii List Bool Arith ZArith Lia Sorted.
Import ListNotations.
Open Scope string_scope.
Open Scope list_scope.
Open Scope nat_scope.

(** ** Exceptions and fallible computations *)

Inductive exn : Type :=
| ValueError
| IndexError
| AttributeError
| TypeError
| KeyError
| NotImplementedError
| ElementClickInterceptedException
| URLError.

Inductive result (A : Type) : Type :=
| Ok (a : A)
| Raise (e : exn).
Arguments Ok {A} a.
Arguments Raise {A} e.

Definition bind {A B} (m : result A) (k : A -> result B) : result B :=
  match m with
  | Ok a => k a
  | Raise e => Raise e
  end.

Notation "x <- m ;; k" := (bind m (fun x => k))
  (at level 61, m at next level, right associativity).

(** Python truthiness of [str | None]: [None] and the empty text are falsy. *)
Definition truthy (o : option string) : bool :=
  match o with
  | Some (String _ _) => true
  | _ => false
  end.

(** ** Python [str] operations used by the scraper *)
Module PyStr.

Definition is_upper (c : ascii) : bool :=
  let n := nat_of_ascii c in (65 <=? n) && (n <=? 90).

Definition lower_char (c : ascii) : ascii :=
  if is_upper c then ascii_of_nat (nat_of_ascii c + 32) else c.

(** [s.lower()] *)
Fixpoint lower (s : string) : string :=
  match s with
  | EmptyString => EmptyString
  | String c s' => String (lower_char c) (lower s')
  end.

(** [str.isspace] on one character: TAB..CR, FS..US and the space. *)
Definition is_space (c : ascii) : bool :=
  let n := nat_of_ascii c in
  ((9 <=? n) && (n <=? 13)) || ((28 <=? n) && (n <=? 32)).

Definition is_digit (c : ascii) : bool :=
  let n := nat_of_ascii c in (48 <=? n) && (n <=? 57).

Definition is_alpha (c : ascii) : bool :=
  let n := nat_of_ascii (lower_char c) in (97 <=? n) && (n <=? 122).

(** [s.startswith(p)] *)
Fixpoint startswith (p s : string) : bool :=
  match p, s with
  | EmptyString, _ => true
  | String a p', String b s' => Ascii.eqb a b && startswith p' s'
  | String _ _, EmptyString => false
  end.

(** [s.count(sub)]: occurrences found by a left-to-right scan that resumes
    after each occurrence (they do not overlap).  [skip] is the number of
    characters still covered by the occurrence found last.  The empty [sub]
    is found before every character and once at the end. *)
Fixpoint count_from (sub s : string) (skip : nat) : nat :=
  match s with
  | EmptyString =>
      match sub with EmptyString => 1 | String _ _ => 0 end
  | String _ s' =>
      match skip with
      | S k => count_from sub s' k
      | O =>
          if startswith sub s
          then S (count_from sub s' (String.length sub - 1))
          else count_from sub s' 0
      end
  end.

Definition count (s sub : string) : nat := count_from sub s 0.

(** [s.replace(old, new)] for a non-empty [old]. *)
Fixpoint replace_from (old new s : string) (skip : nat) : string :=
  match s with
  | EmptyString => EmptyString
  | String c s' =>
      match skip with
      | S k => replace_from old new s' k
      | O =>
          if startswith old s
          then (new ++ replace_from old new s' (String.length old - 1))%string
          else String c (replace_from old new s' 0)
      end
  end.

Definition replace (s old new : string) : string := replace_from old new s 0.

Fixpoint lstrip (s : string) : string :=
  match s with
  | EmptyString => EmptyString
  | String c s' => if is_space c then lstrip s' else s
  end.

Fixpoint rstrip (s : string) : string :=
  match s with
  | EmptyString => EmptyString
  | String c s' =>
      match rstrip s' with
      | EmptyString => if is_space c then EmptyString else String c EmptyString
      | r => String c r
      end
  end.

(** [s.strip()] *)
Definition strip (s : string) : string := rstrip (lstrip s).

(** [s.split(sep)] for a non-empty [sep]; [cur] is the segment being read. *)
Fixpoint split_from (sep s : string) (skip : nat) (cur : string) : list string :=
  match s with
  | EmptyString => [cur]
  | String c s' =>
      match skip with
      | S k => split_from sep s' k cur
      | O =>
          if startswith sep s
          then cur :: split_from sep s' (String.length sep - 1) EmptyString
          else split_from sep s' 0 (cur ++ String c EmptyString)%string
      end
  end.

Definition split (s sep : string) : list string := split_from sep s 0 EmptyString.

(** [l[i]] on a list: [IndexError] out of range. *)
Definition getitem {A} (l : list A) (i : nat) : result A :=
  match nth_error l i with
  | Some a => Ok a
  | None => Raise IndexError
  end.

End PyStr.

(** ** Dates: [datetime], [datetime.strptime] and the month offset *)
Module DateTime.
Open Scope Z_scope.

(** A naive [datetime.datetime]. *)
Record datetime : Type := mkdatetime {
  year : Z; month : Z; day : Z;
  hour : Z; minute : Z; second : Z; microsecond : Z
}.

Definition fields (d : datetime) : list Z :=
  [year d; month d; day d; hour d; minute d; second d; microsecond d].

Fixpoint lex_ltb (a b : list Z) : bool :=
  match a, b with
  | x :: a', y :: b' => (x <? y) || ((x =? y) && lex_ltb a' b')
  | _, _ => false
  end.

(** [a < b] on datetimes. *)
Definition ltb (a b : datetime) : bool := lex_ltb (fields a) (fields b).

Definition is_leap (y : Z) : bool :=
  ((y mod 4 =? 0) && negb (y mod 100 =? 0)) || (y mod 400 =? 0).

(** [calendar.monthrange(y, m)[1]] *)
Definition days_in_month (y m : Z) : Z :=
  if m =? 2 then (if is_leap y then 29 else 28)
  else if (m =? 4) || (m =? 6) || (m =? 9) || (m =? 11) then 30
  else 31.

Definition digit_val (c : ascii) : Z := Z.of_nat (nat_of_ascii c) - 48.

Definition in_range (lo hi : nat) (c : ascii) : bool :=
  let n := nat_of_ascii c in ((lo <=? n) && (n <=? hi))%nat.

(** The directive [%d], the pattern [3[0-1]|[1-2]\d|0[1-9]|[1-9]| [1-9]]:
    every alternative that matches at the head of [s], in the order the
    matcher tries them, with the text left after it. *)
Definition day_candidates (s : string) : list (Z * string) :=
  match s with
  | EmptyString => []
  | String a r1 =>
      let two :=
        match r1 with
        | String b r2 =>
            let v := 10 * digit_val a + digit_val b in
            (if Ascii.eqb a "3" && in_range 48 49 b then [(v, r2)] else []) ++
            (if in_range 49 50 a && PyStr.is_digit b then [(v, r2)] else []) ++
            (if Ascii.eqb a "0" && in_range 49 57 b then [(v, r2)] else [])
        | EmptyString => []
        end in
      let one := if in_range 49 57 a then [(digit_val a, r1)] else [] in
      let padded :=
        match r1 with
        | String b r2 =>
            if Ascii.eqb a " " && in_range 49 57 b then [(digit_val b, r2)] else []
        | EmptyString => []
        end in
      two ++ one ++ padded
  end.

(** White space of the format, the pattern [\s+]. *)
Definition spaces1 (s : string) : option string :=
  match s with
  | String c s' => if PyStr.is_space c then Some (PyStr.lstrip s') else None
  | EmptyString => None
  end.

Definition month_abbr : list (string * Z) :=
  [("jan", 1); ("feb", 2); ("mar", 3); ("apr", 4); ("may", 5); ("jun", 6);
   ("jul", 7); ("aug", 8); ("sep", 9); ("oct", 10); ("nov", 11); ("dec", 12)].

Fixpoint assoc (k : string) (l : list (string * Z)) : option Z :=
  match l with
  | [] => None
  | (k', v) :: l' => if String.eqb k k' then Some v else assoc k l'
  end.

(** The directive [%b]: an abbreviated month name, in any letter case. *)
Definition parse_month (s : string) : option (Z * string) :=
  match s with
  | String a (String b (String c r)) =>
      match assoc (PyStr.lower (String a (String b (String c EmptyString)))) month_abbr with
      | Some m => Some (m, r)
      | None => None
      end
  | _ => None
  end.

(** The directive [%Y], the pattern [\d\d\d\d]. *)
Definition parse_year (s : string) : option (Z * string) :=
  match s with
  | String a (String b (String c (String d r))) =>
      if PyStr.is_digit a && PyStr.is_digit b && PyStr.is_digit c && PyStr.is_digit d
      then Some (1000 * digit_val a + 100 * digit_val b + 10 * digit_val c + digit_val d, r)
      else None
  | _ => None
  end.

(** What follows the day in ["%d %b %Y"]: month, year and the text left. *)
Definition parse_tail (s : string) : option (Z * Z * string) :=
  match spaces1 s with
  | None => None
  | Some s1 =>
      match parse_month s1 with
      | None => None
      | Some (m, s2) =>
          match spaces1 s2 with
          | None => None
          | Some s3 =>
              match parse_year s3 with
              | None => None
              | Some (y, s4) => Some (m, y, s4)
              end
          end
      end
  end.

Fixpoint first_match (cands : list (Z * string)) : option (Z * Z * Z * string) :=
  match cands with
  | [] => None
  | (d, r) :: cands' =>
      match parse_tail r with
      | Some (m, y, rest) => Some (d, m, y, rest)
      | None => first_match cands'
      end
  end.

(** [datetime.strptime(s, "%d %b %Y")]: [ValueError] when the text does not
    match the format, when text is left over, or when the day does not
    exist in that month. *)
Definition strptime (s : string) : result datetime :=
  match first_match (day_candidates s) with
  | None => Raise ValueError
  | Some (d, m, y, rest) =>
      match rest with
      | String _ _ => Raise ValueError
      | EmptyString =>
          if (y <? 1) || (days_in_month y m <? d) then Raise ValueError
          else Ok (mkdatetime y m d 0 0 0 0)
      end
  end.

(** Modelled from the spec: [today - pandas.tseries.offsets.DateOffset(months=n)]
    is a call into pandas, which is not part of the repository.  The spec
    reads it as today minus [n] calendar months; the day of the month is
    kept, clipped to the last day of the month reached, and the time of
    day is kept. *)
Definition sub_months (d : datetime) (n : Z) : datetime :=
  let total := 12 * year d + (month d - 1) - n in
  let y := total / 12 in
  let m := total mod 12 + 1 in
  mkdatetime y m (Z.min (day d) (days_in_month y m))
             (hour d) (minute d) (second d) (microsecond d).

End DateTime.

(** ** Regular expressions, as far as [re.search] needs them

    [re.search(p, text)] is only tested for truth, so a pattern is given the
    set of positions at which a match that starts at position [i] can end. *)
Module Regex.

Inductive regex : Type :=
| Eps
| Lit (c : ascii)              (* a literal character *)
| Cls (p : ascii -> bool)      (* a character class: [\d], [\s], [[\d,]] *)
| Cat (r1 r2 : regex)
| Alt (r1 r2 : regex)
| Star (r : regex)
| WordB.                       (* [\b] *)

Definition Plus (r : regex) : regex := Cat r (Star r).
Definition Opt (r : regex) : regex := Alt r Eps.

Fixpoint Seq (l : list regex) : regex :=
  match l with
  | [] => Eps
  | r :: l' => Cat r (Seq l')
  end.

Fixpoint Str (s : string) : regex :=
  match s with
  | EmptyString => Eps
  | String c s' => Cat (Lit c) (Str s')
  end.

(** [\w] *)
Definition is_word (c : ascii) : bool :=
  PyStr.is_alpha c || PyStr.is_digit c || Ascii.eqb c "_".

Definition word_at (s : string) (i : nat) : bool :=
  match String.get i s with
  | Some c => is_word c
  | None => false
  end.

(** [\b] holds between a word character and a non-word character or an
    end of the text. *)
Definition boundary (s : string) (i : nat) : bool :=
  xorb (match i with O => false | S j => word_at s j end) (word_at s i).

Definition lit_eqb (ignorecase : bool) (c x : ascii) : bool :=
  if ignorecase then Ascii.eqb (PyStr.lower_char c) (PyStr.lower_char x)
  else Ascii.eqb c x.

(** Repetition: [i] itself, and what is reached from [i] by one more
    round that consumed something. *)
Fixpoint star_ends (step : nat -> list nat) (fuel : nat) (i : nat) : list nat :=
  i :: match fuel with
       | O => []
       | S k => flat_map (star_ends step k) (filter (fun j => i <? j) (step i))
       end.

Fixpoint ends (ignorecase : bool) (s : string) (r : regex) (i : nat) : list nat :=
  match r with
  | Eps => [i]
  | Lit c =>
      match String.get i s with
      | Some x => if lit_eqb ignorecase c x then [S i] else []
      | None => []
      end
  | Cls p =>
      match String.get i s with
      | Some x => if p x then [S i] else []
      | None => []
      end
  | Cat r1 r2 => flat_map (ends ignorecase s r2) (ends ignorecase s r1 i)
  | Alt r1 r2 => ends ignorecase s r1 i ++ ends ignorecase s r2 i
  | Star r' => star_ends (ends ignorecase s r') (String.length s) i
  | WordB => if boundary s i then [i] else []
  end.

Definition matches_at (ignorecase : bool) (r : regex) (s : string) (i : nat) : bool :=
  match ends ignorecase s r i with
  | [] => false
  | _ :: _ => true
  end.

(** The truth value of [re.search(r, s, flags)]. *)
Definition search (r : regex) (s : string) (ignorecase : bool) : bool :=
  existsb (matches_at ignorecase r s) (seq 0 (S (String.length s))).

End Regex.

(** ** [libs/Article.py] *)

(** What the browser finds under one result node, for the four relative
    lookups of the extractor.  [None] is [NoSuchElementException], which
    [_get_web_element] turns into [None]. *)
Record WebElement : Type := mkWebElement {
  title_node : option string;          (* text of [h3.gc__title/a] *)
  date_node : option string;           (* text of the date [span] *)
  excerpt_node : option string;        (* text of [div.gc__excerpt/p] *)
  img_node : option (option string)    (* the [img] node and its [src] attribute *)
}.

Record Article : Type := mkArticle {
  element : WebElement;
  search_term : string;
  output_dir : string;
  title : option string;
  date : option DateTime.datetime;
  description : option string;
  image_url : option string;
  image_file_name : option string;
  matches_count : nat;
  has_money : bool
}.

Definition _parse_date (el : WebElement) : result (option DateTime.datetime) :=
  let date_text := date_node el in
  if truthy date_text then
    match date_text with
    | Some t =>
        let t := PyStr.rstrip (PyStr.strip (PyStr.replace t "Last update" EmptyString)) in
        d <- DateTime.strptime t ;;
        Ok (Some d)
    | None => Ok None
    end
  else Ok None.

Definition _parse_title (el : WebElement) : option string := title_node el.

Definition _parse_description (el : WebElement) : option string := excerpt_node el.

Definition _parse_image_url (el : WebElement) : result (option string * option string) :=
  match img_node el with
  | None => Ok (None, None)
  | Some None => Raise AttributeError
  | Some (Some image_url) =>
      after <- PyStr.getitem (PyStr.split image_url "?q=tbn:") 1 ;;
      image_name <- PyStr.getitem (PyStr.split after "&") 0 ;;
      Ok (Some image_url, Some (image_name ++ ".jpeg")%string)
  end.

Definition _count_matches (title description : option string) (search_term : string) : nat :=
  let counter := 0 in
  let counter :=
    match title with
    | Some t => if truthy title
                then counter + PyStr.count (PyStr.lower t) (PyStr.lower search_term)
                else counter
    | None => counter
    end in
  let counter :=
    match description with
    | Some d => if truthy description
                then counter + PyStr.count (PyStr.lower d) (PyStr.lower search_term)
                else counter
    | None => counter
    end in
  counter.

Module Money.
Import Regex.

Definition digit_or_comma (c : ascii) : bool := PyStr.is_digit c || Ascii.eqb c ",".

(** [\$\s?[\d,]+\.\d+] *)
Definition currency : regex :=
  Seq [Lit "$"; Opt (Cls PyStr.is_space); Plus (Cls digit_or_comma);
       Lit "."; Plus (Cls PyStr.is_digit)].

(** [\b\d+\s*dollars\b] *)
Definition dollars : regex :=
  Seq [WordB; Plus (Cls PyStr.is_digit); Star (Cls PyStr.is_space);
       Str "dollars"; WordB].

(** [\b\d+\s*USD\b] *)
Definition usd : regex :=
  Seq [WordB; Plus (Cls PyStr.is_digit); Star (Cls PyStr.is_space);
       Str "USD"; WordB].

Definition patterns : list regex := [currency; dollars; usd].
End Money.

(** [x and re.search(pattern, x, re.IGNORECASE)] *)
Definition and_search (pattern : Regex.regex) (x : option string) : bool :=
  match x with
  | Some t => truthy x && Regex.search pattern t true
  | None => false
  end.

(** The loop of [_find_money_mentions] over a list of patterns. *)
Fixpoint find_in_patterns (patterns : list Regex.regex) (title description : option string) : bool :=
  match patterns with
  | [] => false
  | pattern :: patterns' =>
      if and_search pattern title then true
      else if and_search pattern description then true
      else find_in_patterns patterns' title description
  end.

Definition _find_money_mentions (title description : option string) : bool :=
  find_in_patterns Money.patterns title description.

(** [Article.__init__] *)
Definition Article_init (el : WebElement) (search_term output_dir : string) : result Article :=
  let title := _parse_title el in
  date <- _parse_date el ;;
  let description := _parse_description el in
  image <- _parse_image_url el ;;
  let '(image_url, image_file_name) := image in
  let matches_count := _count_matches title description search_term in
  let has_money := _find_money_mentions title description in
  Ok (mkArticle el search_term output_dir title date description
                image_url image_file_name matches_count has_money).

(** [Article.download_image], with [urlretrieve] as an oracle of the network:
    it succeeds or raises. *)
Definition download_image (urlretrieve : string -> bool) (a : Article) : result unit :=
  if negb (truthy (image_url a)) then Ok tt
  else match image_url a with
       | Some url => if urlretrieve url then Ok tt else Raise URLError
       | None => Ok tt
       end.

(** ** The browser *)

(** What the driver is asked to do, in order. *)
Inductive action : Type :=
| Locate (xpath : string)
| Click (xpath : string)
| SendKeys (xpath : string) (keys : string).

(** One answer of the site to [load_more_articles] and the re-read that
    follows it. *)
Inductive LoadResult : Type :=
| NoButton                               (* no load-more button *)
| ClickIntercepted                       (* the click on it raises *)
| Loaded (reread : list WebElement).     (* clicked; [find_elements] after it *)

Record Browser : Type := mkBrowser {
  located : string -> bool;              (* [find_element] finds the node *)
  intercepted : string -> bool;          (* a click on it is intercepted *)
  first_read : list WebElement;          (* [find_elements] for the result nodes *)
  loads : list LoadResult;               (* answers to the successive load-more clicks;
                                            none is left when the site has no more *)
  urlretrieve : string -> bool           (* the image download succeeds *)
}.

(** A driver command: its result and the actions it performed. *)
Definition cmd (A : Type) : Type := (result A * list action)%type.

Definition cmd_bind {A B} (m : cmd A) (k : A -> cmd B) : cmd B :=
  match fst m with
  | Ok a => let r := k a in (fst r, snd m ++ snd r)
  | Raise e => (Raise e, snd m)
  end.

Notation "x <~ m ;; k" := (cmd_bind m (fun x => k))
  (at level 61, m at next level, right associativity).

Definition cmd_ret {A} (a : A) : cmd A := (Ok a, []).
Definition cmd_raise {A} (e : exn) : cmd A := (Raise e, []).

(** [NewsScraper._get_web_element(locator)], one node: the handle of the
    node (its locator) or [None]. *)
Definition _get_web_element (b : Browser) (locator : string) : cmd (option string) :=
  (Ok (if located b locator then Some locator else None), [Locate locator]).

(** [elements or None] of [_get_web_element(..., multiple=True)]. *)
Definition _get_web_elements (found : list WebElement) : option (list WebElement) :=
  match found with
  | [] => None
  | _ :: _ => Some found
  end.

(** [el.click()] on what [_get_web_element] returned. *)
Definition click (b : Browser) (el : option string) : cmd unit :=
  match el with
  | None => cmd_raise AttributeError
  | Some x =>
      if intercepted b x then (Raise ElementClickInterceptedException, [Click x])
      else (Ok tt, [Click x])
  end.

Definition send_keys (el : option string) (keys : string) : cmd unit :=
  match el with
  | None => cmd_raise AttributeError
  | Some x => (Ok tt, [SendKeys x keys])
  end.

(** ** [libs/NewsScraper.py] *)

(** [Keys.RETURN] of selenium, the character U+E006; it is not an ASCII
    character and is written here as its three bytes in UTF-8. *)
Definition RETURN : string :=
  String (ascii_of_nat 238) (String (ascii_of_nat 128) (String (ascii_of_nat 134) EmptyString)).

Definition perform_search (b : Browser) (search_term : string) : cmd unit :=
  search_icon <~ _get_web_element b "//div[@class='site-header__search-trigger']" ;;
  _ <~ click b search_icon ;;
  search_bar <~ _get_web_element b ".//input[@class='search-bar__input']" ;;
  _ <~ send_keys search_bar search_term ;;
  send_keys search_bar RETURN.

Definition sort_by (b : Browser) (by_ : string) : cmd unit :=
  if negb (String.eqb by_ "date" || String.eqb by_ "relevance")
  then cmd_raise ValueError
  else
    sort_by_option <~ _get_web_element b ".//option[@value='date']" ;;
    click b sort_by_option.

(** [except (NoSuchElementException, ElementClickInterceptedException)] *)
Definition close_ad_in_search_results (b : Browser) : cmd unit :=
  let r :=
    add_close_button <~ _get_web_element b "//button[@class='ads__close-button']" ;;
    click b add_close_button in
  match fst r with
  | Raise ElementClickInterceptedException => (Ok tt, snd r)
  | _ => r
  end.

(** A node of the visible list with its position in the list as read
    (the position is only there to state properties; the code has the node). *)
Definition indexed {A} (l : list A) : list (nat * A) := combine (seq 0 (length l)) l.

(** How a run of the loop ended. *)
Record Outcome : Type := mkOutcome {
  raised : option exn;            (* the exception that left the loop, if any *)
  final_articles : list Article;  (* [self.articles] *)
  visited : list nat              (* positions of the nodes handed to [Article] *)
}.

(** [current_article.date and current_article.date < limit_date] *)
Definition before_limit (limit_date : DateTime.datetime) (a : Article) : bool :=
  match date a with
  | Some d => DateTime.ltb d limit_date
  | None => false
  end.

Section CollectionLoop.
Variable b : Browser.
Variable search_term : string.
Variable output_dir : string.
Variable limit_date : DateTime.datetime.

(** The [while list_of_articles_elements:] loop of [collect_articles]. *)
Fixpoint collect_loop (script : list LoadResult)
  : list (nat * WebElement) -> list Article -> list nat -> Outcome :=
  fix scan (list_of_articles_elements : list (nat * WebElement))
           (articles : list Article) (seen : list nat) : Outcome :=
    match list_of_articles_elements with
    | [] => mkOutcome None articles seen
    | (pos, article_element) :: rest =>
        let seen := seen ++ [pos] in
        match Article_init article_element search_term output_dir with
        | Raise e => mkOutcome (Some e) articles seen
        | Ok current_article =>
            if before_limit limit_date current_article
            then mkOutcome None articles seen
            else
              let articles := articles ++ [current_article] in
              match download_image (urlretrieve b) current_article with
              | Raise e => mkOutcome (Some e) articles seen
              | Ok _ =>
                  match rest with
                  | _ :: _ => scan rest articles seen
                  | [] =>
                      match script with
                      | [] => mkOutcome None articles seen
                      | NoButton :: _ => mkOutcome None articles seen
                      | ClickIntercepted :: _ =>
                          mkOutcome (Some ElementClickInterceptedException) articles seen
                      | Loaded reread :: script' =>
                          match _get_web_elements reread with
                          | None => mkOutcome (Some TypeError) articles seen
                          | Some l =>
                              collect_loop script'
                                (skipn (length articles) (indexed l)) articles seen
                          end
                      end
                  end
              end
        end
    end.

End CollectionLoop.

(** [self.articles] is the only attribute of the scraper the claims read. *)
Record NewsScraper : Type := mkNewsScraper {
  articles : list Article;
  scraper_output_dir : string
}.

(** [NewsScraper.__init__] and [set_output_dir] *)
Definition NewsScraper_init (output_dir : string) : NewsScraper :=
  mkNewsScraper [] output_dir.

(** What [collect_articles] does before its loop. *)
Definition prepare_search (b : Browser) (search_term : string) : cmd (option (list WebElement)) :=
  _ <~ perform_search b search_term ;;
  _ <~ sort_by b "date" ;;
  _ <~ close_ad_in_search_results b ;;
  _ <~ _get_web_element b ".//div[@class='search-result__list']" ;;
  (Ok (_get_web_elements (first_read b)), [Locate "//article"]).

(** [limit_date = datetime.today() - DateOffset(months=number_of_months)] *)
Definition compute_limit_date (today : DateTime.datetime) (number_of_months : Z) : DateTime.datetime :=
  DateTime.sub_months today number_of_months.

(** [NewsScraper.collect_articles]; [today] is the clock read at its start. *)
Definition collect_articles (self : NewsScraper) (b : Browser) (today : DateTime.datetime)
    (search_term : string) (number_of_months : Z) : Outcome :=
  let limit_date := compute_limit_date today number_of_months in
  match fst (prepare_search b search_term) with
  | Raise e => mkOutcome (Some e) (articles self) []
  | Ok None => mkOutcome None (articles self) []
  | Ok (Some l) =>
      collect_loop b search_term (scraper_output_dir self) limit_date
                   (loads b) (indexed l) (articles self) []
  end.

(** ** The report: [create_report] and the part of pandas it calls *)

(** A value held by a data frame. *)
Inductive cell : Type :=
| CNone
| CText (s : string)
| CDate (d : DateTime.datetime)
| CInt (n : nat)
| CBool (v : bool)
| CObject (repr : string).

Definition cell_of_text (o : option string) : cell :=
  match o with Some s => CText s | None => CNone end.

Definition cell_of_date (o : option DateTime.datetime) : cell :=
  match o with Some d => CDate d | None => CNone end.

(** [vars(article)]: the attributes in the order [__init__] sets them. *)
Definition vars (a : Article) : list (string * cell) :=
  [("element", CObject "WebElement");
   ("search_term", CText (search_term a));
   ("output_dir", CObject (output_dir a));
   ("logger", CObject "Logger");
   ("title", cell_of_text (title a));
   ("date", cell_of_date (date a));
   ("description", cell_of_text (description a));
   ("image_url", cell_of_text (image_url a));
   ("image_file_name", cell_of_text (image_file_name a));
   ("matches_count", CInt (matches_count a));
   ("has_money", CBool (has_money a))].

Record DataFrame : Type := mkDataFrame {
  columns : list string;
  rows : list (list cell)
}.

Definition mem (k : string) (l : list string) : bool := existsb (String.eqb k) l.

Fixpoint get_cell (k : string) (record : list (string * cell)) : cell :=
  match record with
  | [] => CNone
  | (k', v) :: record' => if String.eqb k k' then v else get_cell k record'
  end.

(** [pd.DataFrame(records)] for a list of dicts (pandas is a library the
    repository calls): the columns are the keys in the order they first
    appear; no record gives no column. *)
Definition DataFrame_of_records (records : list (list (string * cell))) : DataFrame :=
  let cols :=
    fold_left (fun acc record => acc ++ filter (fun k => negb (mem k acc)) (map fst record))
              records [] in
  mkDataFrame cols (map (fun record => map (fun k => get_cell k record) cols) records).

Fixpoint index_of (k : string) (l : list string) : nat :=
  match l with
  | [] => 0
  | k' :: l' => if String.eqb k k' then 0 else S (index_of k l')
  end.

(** [df[names]]: [KeyError] when a name is not a column. *)
Definition select (df : DataFrame) (names : list string) : result DataFrame :=
  if forallb (fun k => mem k (columns df)) names
  then Ok (mkDataFrame names
             (map (fun row => map (fun k => nth (index_of k (columns df)) row CNone) names)
                  (rows df)))
  else Raise KeyError.

(** The two files written: a header and the rows of values under it. *)
Record Report : Type := mkReport {
  csv_header : string;            (* first line of [report.csv] *)
  csv_rows : list (list cell);
  xlsx_header : list string;      (* first row of [report.xlsx] *)
  xlsx_rows : list (list cell)
}.

Definition report_columns : list string :=
  ["title"; "date"; "description"; "image_file_name"; "matches_count"; "has_money"].

(** [NewsScraper.create_report] *)
Definition create_report (self : NewsScraper) : result Report :=
  let report_df := DataFrame_of_records (map vars (articles self)) in
  report_df <- select report_df report_columns ;;
  Ok (mkReport (String.concat "," (columns report_df)) (rows report_df)
               (columns report_df) (rows report_df)).

(** ** [tasks.py] *)

(** A work item, with what the site and the clock answer while it is
    processed. *)
Record WorkItem : Type := mkWorkItem {
  payload_search_phrase : option string;
  payload_number_of_months : option Z;
  site : Browser;
  today : DateTime.datetime
}.

Definition payload_get {A} (field : option A) (default : A) : A :=
  match field with Some v => v | None => default end.

Record TaskRun : Type := mkTaskRun {
  task_raised : option exn;
  scraper : NewsScraper;
  entries : list (list Article)   (* [self.articles] at the start of each [collect_articles] *)
}.

(** The body of the loop over the work items:
    [scraper.collect_articles(search_phrase, number_of_months=number_of_months)] *)
Definition collect_item (self : NewsScraper) (item : WorkItem) : Outcome :=
  let search_phrase := payload_get (payload_search_phrase item) "Science" in
  let number_of_months := payload_get (payload_number_of_months item) 1%Z in
  collect_articles self (site item) (today item) search_phrase number_of_months.

(** [for item in workitems.inputs: scraper.collect_articles(...)] *)
Fixpoint collect_items (self : NewsScraper) (items : list WorkItem) : TaskRun :=
  match items with
  | [] => mkTaskRun None self []
  | item :: items' =>
      let o := collect_item self item in
      let self' := mkNewsScraper (final_articles o) (scraper_output_dir self) in
      match raised o with
      | Some e => mkTaskRun (Some e) self' [articles self]
      | None =>
          let r := collect_items self' items' in
          mkTaskRun (task_raised r) (scraper r) (articles self :: entries r)
      end
  end.

(** * Definitions used to state the properties *)

(** ASCII text: every character is below 128.  On such text [PyStr.lower]
    is [str.lower]. *)
Fixpoint is_ascii (s : string) : bool :=
  match s with
  | EmptyString => true
  | String c s' => (nat_of_ascii c <? 128) && is_ascii s'
  end.

Definition ascii_field (field : option string) : bool :=
  match field with
  | Some text => is_ascii text
  | None => true
  end.

(** The specification's count: occurrences of the phrase in a text, letter
    case ignored, read from the left, one after the other. *)
Module CountSpec.

(** [a] is a capital letter, A to Z, and [b] the same letter in small. *)
Definition capital_of (a b : ascii) : bool :=
  let m := nat_of_ascii a in
  let n := nat_of_ascii b in
  (65 <=? m) && (m <=? 90) && (n =? m + 32).

(** The same character, letter case ignored. *)
Definition eqb_ci (a b : ascii) : bool :=
  Ascii.eqb a b || capital_of a b || capital_of b a.

Fixpoint startswith_ci (p s : string) : bool :=
  match p, s with
  | EmptyString, _ => true
  | String a p', String b s' => eqb_ci a b && startswith_ci p' s'
  | String _ _, EmptyString => false
  end.

Fixpoint occurrences_from (phrase text : string) (skip : nat) : nat :=
  match text with
  | EmptyString =>
      match phrase with EmptyString => 1 | String _ _ => 0 end
  | String _ text' =>
      match skip with
      | S k => occurrences_from phrase text' k
      | O =>
          if startswith_ci phrase text
          then S (occurrences_from phrase text' (String.length phrase - 1))
          else occurrences_from phrase text' 0
      end
  end.

Definition occurrences (phrase text : string) : nat := occurrences_from phrase text 0.

(** Only an absent field counts for nothing. *)
Definition contribution_if_present (phrase : string) (field : option string) : nat :=
  match field with
  | Some text => occurrences phrase text
  | None => 0
  end.

(** An absent or empty field counts for nothing, as the guards
    [if self.title:] and [if self.description:] have it. *)
Definition contribution (phrase : string) (field : option string) : nat :=
  match field with
  | Some (String c text) => occurrences phrase (String c text)
  | _ => 0
  end.

End CountSpec.

(** A field matches a pattern: [re.search] finds it, letter case ignored. *)
Definition field_matches (pattern : Regex.regex) (field : option string) : Prop :=
  match field with
  | Some text => Regex.search pattern text true = true
  | None => False
  end.

(** The date text as [_parse_date] hands it to [strptime]. *)
Definition cleaned (date_text : string) : string :=
  PyStr.rstrip (PyStr.strip (PyStr.replace date_text "Last update" EmptyString)).

(** The locator [sort_by] looks up, whatever the key. *)
Definition date_option : string := ".//option[@value='date']".

(** A site where every node is found and nothing gets in the way. *)
Definition plain_site (first : list WebElement) (script : list LoadResult) : Browser :=
  mkBrowser (fun _ => true) (fun _ => false) first script (fun _ => true).

(** The six values of an article's row. *)
Definition report_row (a : Article) : list cell :=
  [cell_of_text (title a); cell_of_date (date a); cell_of_text (description a);
   cell_of_text (image_file_name a); CInt (matches_count a); CBool (has_money a)].

Definition attribute_names : list string :=
  ["element"; "search_term"; "output_dir"; "logger"; "title"; "date"; "description";
   "image_url"; "image_file_name"; "matches_count"; "has_money"].

(** What the loop does when it has used up the visible list. *)
Definition next_page (b : Browser) (term out : string) (limit : DateTime.datetime)
    (script : list LoadResult) (arts : list Article) (seen : list nat)
  : Outcome :=
  match script with
  | [] => mkOutcome None arts seen
  | NoButton :: _ => mkOutcome None arts seen
  | ClickIntercepted :: _ => mkOutcome (Some ElementClickInterceptedException) arts seen
  | Loaded reread :: script' =>
      match _get_web_elements reread with
      | None => mkOutcome (Some TypeError) arts seen
      | Some l =>
          collect_loop b term out limit script' (skipn (length arts) (indexed l)) arts seen
      end
  end.

(** The state of the loop: the list in hand is a visible list without its
    first [k] entries, [k] is at most the number of articles in the session
    list, and the positions visited are increasing and all below [k]. *)
Definition in_order (elems : list (nat * WebElement)) (arts : list Article) (seen : list nat)
  : Prop :=
  exists l k,
    elems = skipn k (indexed l) /\ k <= length arts /\
    StronglySorted lt seen /\ Forall (fun v => v < k) seen.

(** Sample nodes: a title, a date text and an excerpt, no image. *)
Definition sample_node (date_text : string) : WebElement :=
  mkWebElement (Some "Oil prices") (Some date_text) (Some "Paid 15 USD") None.

Definition sample_limit : DateTime.datetime := DateTime.mkdatetime 2024 1 20 10 0 0 0.

Definition sample_page : list WebElement :=
  [sample_node "15 Mar 2024"; sample_node "1 Mar 2024"; sample_node "3 Feb 2024";
   sample_node "19 Jan 2024"].

Definition sample_item : WorkItem :=
  mkWorkItem (Some "oil") (Some 2%Z) (plain_site sample_page [])
             (DateTime.mkdatetime 2024 3 20 10 0 0 0).

(** The marker that precedes the image identifier in the [src] of an image. *)
Definition tbn_marker : string := "?q=tbn:".

(** [sub in s] *)
Definition contains (s sub : string) : Prop :=
  exists before after, s = (before ++ sub ++ after)%string.

(** [c not in s] *)
Fixpoint lacks (c : ascii) (s : string) : bool :=
  match s with
  | EmptyString => true
  | String x s' => negb (Ascii.eqb c x) && lacks c s'
  end.

(** [s.endswith(suffix)] *)
Definition endswith (s suffix : string) : Prop := exists stem, s = (stem ++ suffix)%string.

(** [len(x)] for a field that is present, 0 for an absent one. *)
Definition field_length (field : option string) : nat :=
  match field with
  | Some text => String.length text
  | None => 0
  end.

(** A date of the calendar, at midnight. *)
Definition calendar_date (d : DateTime.datetime) : Prop :=
  (1 <= DateTime.year d <= 9999)%Z /\
  (1 <= DateTime.month d <= 12)%Z /\
  (1 <= DateTime.day d <= DateTime.days_in_month (DateTime.year d) (DateTime.month d))%Z /\
  DateTime.hour d = 0%Z /\ DateTime.minute d = 0%Z /\
  DateTime.second d = 0%Z /\ DateTime.microsecond d = 0%Z.

(** No decimal digit in a text, in a field. *)
Fixpoint no_digit (s : string) : bool :=
  match s with
  | EmptyString => true
  | String c s' => negb (PyStr.is_digit c) && no_digit s'
  end.

Definition field_no_digit (field : option string) : bool :=
  match field with
  | Some text => no_digit text
  | None => true
  end.

(** The locators of [perform_search], [close_ad_in_search_results] and
    [collect_articles]. *)
Definition search_trigger : string := "//div[@class='site-header__search-trigger']".
Definition search_bar_input : string := ".//input[@class='search-bar__input']".
Definition ads_close_button : string := "//button[@class='ads__close-button']".
Definition search_result_list : string := ".//div[@class='search-result__list']".

(** The articles of the nodes that can be constructed, in order. *)
Fixpoint extract (term out : string) (l : list WebElement) : list Article :=
  match l with
  | [] => []
  | el :: l' =>
      match Article_init el term out with
      | Ok a => a :: extract term out l'
      | Raise _ => extract term out l'
      end
  end.

(** A node the loop appends and goes past: its article is constructed, is
    not before the limit, and its image is downloaded. *)
Definition collectable (b : Browser) (term out : string) (limit : DateTime.datetime)
    (el : WebElement) : Prop :=
  exists a,
    Article_init el term out = Ok a /\
    before_limit limit a = false /\
    download_image (urlretrieve b) a = Ok tt.

(** A pattern that ends nowhere in a text. *)
Definition dead (s : string) (r : Regex.regex) : Prop :=
  forall i, Regex.ends true s r i = [].

(** The outcome [o] of the loop started with the articles [arts] and the
    visited positions [seen]: what was appended and what was visited since
    differ in number by one at most. *)
Definition counted (arts : list Article) (seen : list nat) (o : Outcome) : Prop :=
  exists added extra,
    final_articles o = arts ++ added /\
    visited o = seen ++ extra /\
    length added <= length extra <= S (length added).

(** ** Element lookup with its options: [NewsScraper._get_web_element],
    [_get_wait_condition] and [Article._get_web_element] *)
Module Lookup.

(** [selenium.webdriver.common.by.By] *)
Inductive By : Type := ID | XPATH | NAME | CLASS_NAME | CSS_SELECTOR.

(** What a lookup returns: one node or a list of nodes (their handles). *)
Inductive Found : Type :=
| One (handle : string)
| Many (handles : list string).

(** [expected_conditions] *)
Inductive Condition : Type :=
| element_to_be_clickable (by_ : By) (locator : string)
| presence_of_all_elements_located (by_ : By) (locator : string)
| presence_of_element_located (by_ : By) (locator : string).

(** What the parent of a lookup (the driver or a node) answers:
    [find_elements] at once, and what has shown up when a wait ends. *)
Record Parent : Type := mkParent {
  find_elements : By -> string -> list string;
  clickable_by_timeout : By -> string -> option string;
  present_by_timeout : By -> string -> list string
}.

(** [parent.find_element(by, locator)]: the first node, [None] standing for
    [NoSuchElementException]. *)
Definition find_element (p : Parent) (by_ : By) (locator : string) : option string :=
  match find_elements p by_ locator with
  | [] => None
  | handle :: _ => Some handle
  end.

(** [WebDriverWait(parent, timeout).until(condition)]: [None] stands for
    [TimeoutException]. *)
Definition until (p : Parent) (condition : Condition) : option Found :=
  match condition with
  | element_to_be_clickable by_ locator =>
      option_map One (clickable_by_timeout p by_ locator)
  | presence_of_all_elements_located by_ locator =>
      match present_by_timeout p by_ locator with
      | [] => None
      | handles => Some (Many handles)
      end
  | presence_of_element_located by_ locator =>
      match present_by_timeout p by_ locator with
      | [] => None
      | handle :: _ => Some (One handle)
      end
  end.

(** The dict [locator_types] and its [get]. *)
Definition locator_types (locator_type : string) : option By :=
  if String.eqb locator_type "id" then Some ID
  else if String.eqb locator_type "xpath" then Some XPATH
  else if String.eqb locator_type "name" then Some NAME
  else if String.eqb locator_type "class" then Some CLASS_NAME
  else if String.eqb locator_type "css" then Some CSS_SELECTOR
  else None.

(** [wait_condition in [None, "presence", "clickable"]] *)
Definition valid_wait_condition (wait_condition : option string) : bool :=
  match wait_condition with
  | None => true
  | Some w => String.eqb w "presence" || String.eqb w "clickable"
  end.

(** [NewsScraper._get_wait_condition] *)
Definition _get_wait_condition (by_ : By) (locator wait_condition : string) (multiple : bool)
  : Condition :=
  if String.eqb wait_condition "clickable" then element_to_be_clickable by_ locator
  else if String.eqb wait_condition "presence" && multiple
       then presence_of_all_elements_located by_ locator
       else presence_of_element_located by_ locator.

(** [NewsScraper._get_web_element], with all its parameters; [parent] is
    the node given or the driver. *)
Definition _get_web_element (parent : Parent) (locator locator_type : string)
    (multiple : bool) (explicit_wait : Z) (wait_condition : option string)
  : result (option Found) :=
  match locator_types locator_type with
  | None => Raise ValueError
  | Some by_ =>
      if negb (valid_wait_condition wait_condition) then Raise ValueError
      else
        let wait_condition :=
          if truthy wait_condition
          then match wait_condition with Some w => w | None => "presence" end
          else "presence" in
        if (0 <? explicit_wait)%Z then
          let condition := _get_wait_condition by_ locator wait_condition multiple in
          Ok (until parent condition)
        else if multiple then
          match find_elements parent by_ locator with
          | [] => Ok None
          | elements => Ok (Some (Many elements))
          end
        else Ok (option_map One (find_element parent by_ locator))
  end.

(** [Article._get_web_element] *)
Definition Article_get_web_element (parent : Parent) (locator locator_type : string)
    (multiple : bool) : result (option Found) :=
  let method_to_use (by_ : By) (locator : string) : result (option Found) :=
    if multiple then Ok (Some (Many (find_elements parent by_ locator)))
    else Ok (option_map One (find_element parent by_ locator)) in
  if String.eqb locator_type "id" then method_to_use ID locator
  else if String.eqb locator_type "xpath" then method_to_use XPATH locator
  else if String.eqb locator_type "name" then method_to_use NAME locator
  else if String.eqb locator_type "class" then method_to_use CLASS_NAME locator
  else if String.eqb locator_type "css" then method_to_use CSS_SELECTOR locator
  else Raise ValueError.

(** The parent that a [Browser] stands for: a node is found by its XPath. *)
Definition parent_of (b : Browser) : Parent :=
  mkParent (fun by_ locator =>
              match by_ with
              | XPATH => if located b locator then [locator] else []
              | _ => []
              end)
           (fun _ _ => None) (fun _ _ => []).

End Lookup.

(** ** [libs/CustomSelenium.py] *)
Module Selenium.

(** What can end the set-up of the browser. *)
Inductive error : Type :=
| NotImplemented                (* [NotImplementedError] *)
| NameError
| NoDriver                      (* [AttributeError] on [self.driver], which is [None] *)
| OSError                       (* the output folder cannot be created *)
| WebDriverException.           (* the browser does not start *)

Inductive attempt (A : Type) : Type :=
| Done (a : A)
| Failed (e : error).
Arguments Done {A} a.
Arguments Failed {A} e.

(** The web driver, as far as the wrapper sets it up. *)
Record WebDriver : Type := mkWebDriver {
  browser_name : string;
  arguments : list string;
  implicitly_wait : option Z;
  window_size : Z * Z
}.

Record CustomSelenium : Type := mkCustomSelenium {
  driver : option WebDriver;
  implicit_wait : Z;
  user_agent : string
}.

(** [CustomSelenium.__init__] *)
Definition init : CustomSelenium :=
  mkCustomSelenium None 10
    "Mozilla/5.0 (X11; Linux x86_64) AppleWebKit/537.36 (KHTML, like Gecko) Chrome/129.0.0.0 Safari/537.36".

(** [set_implicit_wait] *)
Definition set_implicit_wait (self : CustomSelenium) (seconds : Z) : CustomSelenium :=
  let self := mkCustomSelenium (driver self) seconds (user_agent self) in
  match driver self with
  | Some d =>
      mkCustomSelenium
        (Some (mkWebDriver (browser_name d) (arguments d) (Some seconds) (window_size d)))
        (implicit_wait self) (user_agent self)
  | None => self
  end.

(** [_set_chrome_options] *)
Definition _set_chrome_options (self : CustomSelenium) : list string :=
  ["--headless"; "--no-sandbox"; "--disable-extensions"; "--disable-gpu";
   "--disable-web-security"; "--start-maximized"; "--remote-debugging-port=9222";
   ("--user-agent=" ++ user_agent self)%string].

(** [str.casefold], on ASCII text. *)
Definition casefold (s : string) : string := PyStr.lower s.

(** [set_webdriver]; [start] is [RPA.core.webdriver.start]: the window the
    browser opens with, or nothing when it does not start. *)
Definition set_webdriver (start : string -> list string -> option (Z * Z))
    (self : CustomSelenium) (browser : string) : CustomSelenium * attempt unit :=
  if String.eqb (casefold browser) "chrome" then
    let options := _set_chrome_options self in
    let browser := "Chrome" in
    match start browser options with
    | None => (self, Failed WebDriverException)
    | Some size =>
        let self :=
          mkCustomSelenium (Some (mkWebDriver browser options None size))
                           (implicit_wait self) (user_agent self) in
        (set_implicit_wait self (implicit_wait self), Done tt)
    end
  else (self, Failed NotImplemented).

(** [set_page_size]: the module does not import [By], so that the lookup
    of the [html] node, which names [By.TAG_NAME], raises [NameError] once
    the window size has been read. *)
Definition set_page_size (self : CustomSelenium) (width height : Z)
  : CustomSelenium * attempt unit :=
  match driver self with
  | None => (self, Failed NoDriver)
  | Some d =>
      let current_window_size := window_size d in
      (self, Failed NameError)
  end.

(** [NewsScraper.prepare_environment]; the folder exists or not, and
    [mkdir] succeeds or not. *)
Definition prepare_environment (start : string -> list string -> option (Z * Z))
    (folder_exists mkdir_ok : bool) (self : CustomSelenium) (browser : string)
  : CustomSelenium * attempt unit :=
  if negb folder_exists && negb mkdir_ok then (self, Failed OSError)
  else
    match set_webdriver start self browser with
    | (self, Failed e) => (self, Failed e)
    | (self, Done _) => set_page_size self 1920 1080
    end.

End Selenium.

(** ** The home page: [access_home_page], [open_url], [accept_cookies] *)

Definition home_page : string := "https://www.aljazeera.com/".
Definition cookies_button : string := "//button[@id='onetrust-accept-btn-handler']".

(** What the driver is asked to do on the home page. *)
Inductive home_action : Type :=
| Get (url : string)
| Screenshot (file : string)
| OnPage (a : action).

(** [CustomSelenium.open_url] *)
Definition open_url (url : string) (screenshot : option string) : list home_action :=
  Get url ::
  (if truthy screenshot
   then match screenshot with Some file => [Screenshot file] | None => [] end
   else []).

(** [NewsScraper.accept_cookies] *)
Definition accept_cookies (b : Browser) : cmd unit :=
  accept_button <~ _get_web_element b cookies_button ;;
  match accept_button with
  | Some _ => click b accept_button
  | None => cmd_ret tt
  end.

(** [NewsScraper.access_home_page] *)
Definition access_home_page (b : Browser) (url : string) (screenshot : option string)
  : result unit * list home_action :=
  if negb (String.eqb url home_page) then (Raise NotImplementedError, [])
  else
    let r := accept_cookies b in
    (fst r, open_url url screenshot ++ map OnPage (snd r)).

(** ** [Article._count_matches] on text of any characters

    The same function as [_count_matches], over characters of any type and
    with [str.lower] as a parameter: lower-casing need not work character by
    character, and may change the length of a text. *)
Module Text.

Section AnyCharacters.
Variable char : Type.
Variable char_eqb : char -> char -> bool.
Variable lower : list char -> list char.

Fixpoint startswith (p s : list char) : bool :=
  match p, s with
  | [], _ => true
  | a :: p', b :: s' => char_eqb a b && startswith p' s'
  | _ :: _, [] => false
  end.

(** [s.count(sub)], as [PyStr.count_from]. *)
Fixpoint count_from (sub s : list char) (skip : nat) : nat :=
  match s with
  | [] => match sub with [] => 1 | _ :: _ => 0 end
  | _ :: s' =>
      match skip with
      | S k => count_from sub s' k
      | O =>
          if startswith sub s
          then S (count_from sub s' (length sub - 1))
          else count_from sub s' 0
      end
  end.

Definition count (s sub : list char) : nat := count_from sub s 0.

Definition truthy (o : option (list char)) : bool :=
  match o with
  | Some (_ :: _) => true
  | _ => false
  end.

Definition _count_matches (title description : option (list char)) (search_term : list char)
  : nat :=
  let counter := 0 in
  let counter :=
    match title with
    | Some t => if truthy title
                then counter + count (lower t) (lower search_term)
                else counter
    | None => counter
    end in
  let counter :=
    match description with
    | Some d => if truthy description
                then counter + count (lower d) (lower search_term)
                else counter
    | None => counter
    end in
  counter.

(** [len(x.lower())] for a field that is present, 0 for an absent one. *)
Definition lowered_length (field : option (list char)) : nat :=
  match field with
  | Some text => length (lower text)
  | None => 0
  end.

End AnyCharacters.

Arguments startswith {char} char_eqb p s.
Arguments count_from {char} char_eqb sub s skip.
Arguments count {char} char_eqb s sub.
Arguments truthy {char} o.
Arguments _count_matches {char} char_eqb lower title description search_term.
Arguments lowered_length {char} lower field.

(** Text as code points.  [str.lower] on text made of ASCII characters and
    of U+0130 (capital I with dot above), whose lower-case form is the two
    characters U+0069 U+0307. *)
Definition lower_point (c : N) : list N :=
  if ((65 <=? c) && (c <=? 90))%N then [(c + 32)%N]
  else if (c =? 304)%N then [105%N; 775%N]
  else [c].

Definition lower_points (s : list N) : list N := flat_map lower_point s.

End Text.

(** The articles and the visited positions a run ends with when every node
    it meets can be collected: [arts] and [seen] are those reached when the
    visible list is used up, [rereads] the lists read after the successive
    load-more clicks.  Of a list read again only the entries after the first
    [K] are gone through, [K] being the number of articles in the session
    list; when there is none the run ends. *)
Fixpoint paged (term out : string) (arts : list Article) (seen : list nat)
    (rereads : list (list WebElement)) : list Article * list nat :=
  match rereads with
  | [] => (arts, seen)
  | reread :: rereads' =>
      let K := length arts in
      let new := skipn K reread in
      match new with
      | [] => (arts, seen)
      | _ :: _ =>
          paged term out (arts ++ extract term out new) (seen ++ seq K (length new)) rereads'
      end
  end.

(** A first page and the lists read after two load-more clicks. *)
Definition sample_first_page : list WebElement :=
  [sample_node "15 Mar 2024"; sample_node "14 Mar 2024"].

Definition sample_rereads : list (list WebElement) :=
  [sample_first_page ++ [sample_node "1 Mar 2024"; sample_node "3 Feb 2024"];
   sample_first_page ++ [sample_node "1 Mar 2024"; sample_node "3 Feb 2024";
                         sample_node "2 Feb 2024"]].

(** * Properties *)

(** ** Match counting *)

Lemma length_lower (s : string) : String.length (PyStr.lower s) = String.length s.
Proof. induction s as [|c s IH]; simpl; [reflexivity | now rewrite IH]. Qed.

Lemma ascii_eqb_code (a b : ascii) :
  Ascii.eqb a b = (nat_of_ascii a =? nat_of_ascii b).
Proof.
  destruct (Ascii.eqb_spec a b) as [->|Hne].
  - now rewrite Nat.eqb_refl.
  - symmetry. apply Nat.eqb_neq. intros H. apply Hne.
    rewrite <- (ascii_nat_embedding a), <- (ascii_nat_embedding b). now rewrite H.
Qed.

Lemma lower_char_code (c : ascii) :
  nat_of_ascii (PyStr.lower_char c)
  = if (65 <=? nat_of_ascii c) && (nat_of_ascii c <=? 90)
    then nat_of_ascii c + 32 else nat_of_ascii c.
Proof.
  unfold PyStr.lower_char, PyStr.is_upper.
  destruct ((65 <=? nat_of_ascii c) && (nat_of_ascii c <=? 90)) eqn:H; [|reflexivity].
  apply andb_true_iff in H as [_ H]. apply Nat.leb_le in H.
  apply nat_ascii_embedding. lia.
Qed.

(** Two characters have the same lower-case form exactly when they are the
    same letter, letter case ignored. *)
Lemma lower_char_eqb_ci (a b : ascii) :
  Ascii.eqb (PyStr.lower_char a) (PyStr.lower_char b) = CountSpec.eqb_ci a b.
Proof.
  unfold CountSpec.eqb_ci, CountSpec.capital_of.
  rewrite !ascii_eqb_code, !lower_char_code.
  destruct (Nat.leb_spec 65 (nat_of_ascii a)), (Nat.leb_spec (nat_of_ascii a) 90),
    (Nat.leb_spec 65 (nat_of_ascii b)), (Nat.leb_spec (nat_of_ascii b) 90);
    cbn [andb orb];
    repeat match goal with
      | |- context [?x =? ?y] => destruct (Nat.eqb_spec x y)
      end; cbn [andb orb]; try reflexivity; lia.
Qed.

Lemma startswith_lower (p s : string) :
  PyStr.startswith (PyStr.lower p) (PyStr.lower s) = CountSpec.startswith_ci p s.
Proof.
  revert s; induction p as [|a p IH]; intros [|b s]; simpl; try reflexivity.
  now rewrite IH, lower_char_eqb_ci.
Qed.

Lemma count_from_lower (phrase text : string) (skip : nat) :
  PyStr.count_from (PyStr.lower phrase) (PyStr.lower text) skip
  = CountSpec.occurrences_from phrase text skip.
Proof.
  revert skip; induction text as [|c text IH]; intros skip.
  - destruct phrase; reflexivity.
  - cbn [PyStr.lower PyStr.count_from CountSpec.occurrences_from].
    destruct skip as [|k]; [|apply IH].
    change (String (PyStr.lower_char c) (PyStr.lower text)) with (PyStr.lower (String c text)).
    rewrite startswith_lower, length_lower, !IH. reflexivity.
Qed.

Lemma count_lower (phrase text : string) :
  PyStr.count (PyStr.lower text) (PyStr.lower phrase) = CountSpec.occurrences phrase text.
Proof. apply count_from_lower. Qed.

Lemma count_matches_contributions (title description : option string) (phrase : string) :
  _count_matches title description phrase
  = CountSpec.contribution phrase title + CountSpec.contribution phrase description.
Proof.
  unfold _count_matches.
  destruct title as [[|c t]|], description as [[|c' d]|]; cbn [truthy CountSpec.contribution];
    rewrite ?count_lower; lia.
Qed.

Lemma count_empty_from (s : string) : PyStr.count_from EmptyString s 0 = S (String.length s).
Proof. induction s as [|c s IH]; simpl; [reflexivity | now rewrite IH]. Qed.

Lemma Article_init_fields (el : WebElement) (term out : string) (a : Article) :
  Article_init el term out = Ok a ->
  title a = title_node el /\ description a = excerpt_node el /\ search_term a = term /\
  matches_count a = _count_matches (title a) (description a) term /\
  has_money a = _find_money_mentions (title a) (description a).
Proof.
  unfold Article_init, bind.
  destruct (_parse_date el) as [d|e]; [|discriminate].
  destruct (_parse_image_url el) as [[u f]|e]; [|discriminate].
  intros H; injection H as <-. cbn. repeat split.
Qed.

(** ** Money mentions *)

Lemma money_patterns_need_text (pattern : Regex.regex) :
  In pattern Money.patterns -> Regex.search pattern EmptyString true = false.
Proof.
  intros [<-|[<-|[<-|[]]]]; reflexivity.
Qed.

Lemma and_search_matches (pattern : Regex.regex) (field : option string) :
  In pattern Money.patterns ->
  and_search pattern field = true <-> field_matches pattern field.
Proof.
  intros Hin. unfold and_search, field_matches.
  destruct field as [[|c t]|]; cbn [truthy andb].
  - rewrite (money_patterns_need_text _ Hin). split; discriminate.
  - reflexivity.
  - split; [discriminate | contradiction].
Qed.

Lemma find_in_patterns_exists (ps : list Regex.regex) (title description : option string) :
  find_in_patterns ps title description = true <->
  exists p, In p ps /\ (and_search p title = true \/ and_search p description = true).
Proof.
  induction ps as [|p ps IH]; cbn [find_in_patterns].
  - split; [discriminate | intros (p & [] & _)].
  - destruct (and_search p title) eqn:Ht.
    + split; [|reflexivity]. intros _. exists p. split; [now left | now left].
    + destruct (and_search p description) eqn:Hd.
      * split; [|reflexivity]. intros _. exists p. split; [now left | now right].
      * rewrite IH. split.
        -- intros (q & Hq & H). exists q. split; [now right | exact H].
        -- intros (q & [<-|Hq] & H).
           ++ rewrite Ht, Hd in H. destruct H; discriminate.
           ++ exists q. split; assumption.
Qed.

(** C5: the money flag of the four sample descriptions, and in general the
    flag is set exactly when the title or the description matches one of the
    three money patterns. *)
Theorem has_money_patterns :
  (forall term out, exists a,
      Article_init (mkWebElement None None (Some "Losses of $1,200.50 reported") None) term out
      = Ok a /\ has_money a = true) /\
  (forall term out, exists a,
      Article_init (mkWebElement None None (Some "Cost was 20 dollars") None) term out
      = Ok a /\ has_money a = true) /\
  (forall term out, exists a,
      Article_init (mkWebElement None None (Some "Paid 15 USD") None) term out
      = Ok a /\ has_money a = true) /\
  (forall term out, exists a,
      Article_init (mkWebElement None None (Some "Market fell sharply") None) term out
      = Ok a /\ has_money a = false) /\
  (forall el term out a,
      Article_init el term out = Ok a ->
      (has_money a = true <->
       exists p, In p Money.patterns /\
                 (field_matches p (title a) \/ field_matches p (description a)))).
Proof.
  repeat split; try (eexists; split; [reflexivity | vm_compute; reflexivity]).
  - destruct (Article_init_fields _ _ _ _ H) as (_ & _ & _ & _ & ->).
    unfold _find_money_mentions. rewrite find_in_patterns_exists.
    intros (p & Hp & Hm). exists p. split; [exact Hp|].
    now rewrite <- !(and_search_matches p _ Hp).
  - destruct (Article_init_fields _ _ _ _ H) as (_ & _ & _ & _ & ->).
    unfold _find_money_mentions. rewrite find_in_patterns_exists.
    intros (p & Hp & Hm). exists p. split; [exact Hp|].
    now rewrite !(and_search_matches p _ Hp).
Qed.

Lemma has_money_patterns_witness :
  exists a,
    Article_init (mkWebElement (Some "Deal worth $ 3.5") None None None) "deal" "out" = Ok a /\
    (exists p, In p Money.patterns /\
               (field_matches p (title a) \/ field_matches p (description a))).
Proof.
  eexists; split; [reflexivity|].
  apply (proj2 (proj2 (proj2 (proj2 has_money_patterns)))
           (mkWebElement (Some "Deal worth $ 3.5") None None None) "deal" "out" _ eq_refl).
  vm_compute. reflexivity.
Defined.

(** ** Date parsing *)

Lemma parse_date_truthy (el : WebElement) :
  truthy (date_node el) = true ->
  exists t, date_node el = Some t /\
            _parse_date el = bind (DateTime.strptime (cleaned t)) (fun d => Ok (Some d)).
Proof.
  unfold _parse_date. destruct (date_node el) as [[|c t]|]; cbn [truthy]; try discriminate.
  intros _. eexists; split; reflexivity.
Qed.

Lemma parse_date_falsy (el : WebElement) :
  truthy (date_node el) = false -> _parse_date el = Ok None.
Proof.
  unfold _parse_date. intros ->. reflexivity.
Qed.




(** ** The limit date *)

(** C6: the limit date is today minus [number_of_months] calendar months
    (2024-03-15 minus 2 months is 2024-01-15, whatever the time of day), and
    the loop of one run works with the value computed before it starts. *)
Theorem limit_date_months :
  (forall h mi s us,
      compute_limit_date (DateTime.mkdatetime 2024 3 15 h mi s us) 2
      = DateTime.mkdatetime 2024 1 15 h mi s us) /\
  (forall today n,
      let l := compute_limit_date today n in
      (12 * DateTime.year l + (DateTime.month l - 1)
       = 12 * DateTime.year today + (DateTime.month today - 1) - n)%Z /\
      (1 <= DateTime.month l <= 12)%Z /\
      DateTime.day l
      = Z.min (DateTime.day today) (DateTime.days_in_month (DateTime.year l) (DateTime.month l)) /\
      DateTime.hour l = DateTime.hour today /\
      DateTime.minute l = DateTime.minute today /\
      DateTime.second l = DateTime.second today /\
      DateTime.microsecond l = DateTime.microsecond today) /\
  (forall self b today term n l,
      fst (prepare_search b term) = Ok (Some l) ->
      collect_articles self b today term n
      = collect_loop b term (scraper_output_dir self) (compute_limit_date today n)
                     (loads b) (indexed l) (articles self) []).
Proof.
  split; [|split].
  - intros; reflexivity.
  - intros today n. unfold compute_limit_date, DateTime.sub_months.
    cbn [DateTime.year DateTime.month DateTime.day DateTime.hour DateTime.minute
         DateTime.second DateTime.microsecond].
    set (total := (12 * DateTime.year today + (DateTime.month today - 1) - n)%Z).
    pose proof (Z.div_mod total 12 ltac:(lia)) as Hdm.
    pose proof (Z.mod_pos_bound total 12 ltac:(lia)) as Hb.
    repeat split; lia.
  - intros self b today term n l H. unfold collect_articles. rewrite H. reflexivity.
Qed.

(** The limit keeps the time of day of the run, and a parsed date is at
    midnight: an article dated on the calendar day of the limit is before
    the limit as soon as the run starts after midnight. *)
Remark limit_day_is_before_limit :
  exists a,
    Article_init (sample_node "15 Jan 2024") "oil" "out" = Ok a /\
    before_limit (compute_limit_date (DateTime.mkdatetime 2024 3 15 9 30 0 0) 2) a = true /\
    before_limit (compute_limit_date (DateTime.mkdatetime 2024 3 15 0 0 0 0) 2) a = false.
Proof. eexists; repeat split. Qed.

(** ** Sorting *)

(** C10: both accepted keys make [sort_by] locate and click the option whose
    value is 'date', "relevance" doing exactly what "date" does; any other
    key raises [ValueError] with no action on the browser. *)
Theorem sort_by_always_date :
  (forall b, sort_by b "relevance" = sort_by b "date") /\
  (forall b by_,
      by_ = "date" \/ by_ = "relevance" ->
      located b date_option = true ->
      snd (sort_by b by_) = [Locate date_option; Click date_option]) /\
  (forall b by_,
      by_ <> "date" -> by_ <> "relevance" ->
      sort_by b by_ = (Raise ValueError, [])).
Proof.
  split; [|split].
  - intros b; reflexivity.
  - intros b by_ [-> | ->] Hloc; unfold sort_by, cmd_bind, _get_web_element, click;
      cbn; fold date_option; rewrite Hloc; cbn;
      destruct (intercepted b date_option); reflexivity.
  - intros b by_ Hd Hr. unfold sort_by.
    apply String.eqb_neq in Hd, Hr. rewrite Hd, Hr. reflexivity.
Qed.

Lemma sort_by_always_date_witness :
  snd (sort_by (plain_site [] []) "relevance") = [Locate date_option; Click date_option] /\
  sort_by (plain_site [] []) "title" = (Raise ValueError, []).
Proof.
  split.
  - apply (proj1 (proj2 sort_by_always_date) (plain_site [] []) "relevance");
      [right; reflexivity | reflexivity].
  - apply (proj2 (proj2 sort_by_always_date) (plain_site [] []) "title"); discriminate.
Defined.

(** ** The report *)

Lemma columns_of_articles (l : list Article) (acc : list string) :
  acc = attribute_names ->
  fold_left (fun acc record => acc ++ filter (fun k => negb (mem k acc)) (map fst record))
            (map vars l) acc = attribute_names.
Proof.
  intros ->. induction l as [|a l IH]; [reflexivity|].
  cbn [map fold_left]. exact IH.
Qed.

Lemma DataFrame_of_articles (a : Article) (l : list Article) :
  DataFrame_of_records (map vars (a :: l))
  = mkDataFrame attribute_names
      (map (fun record => map (fun k => get_cell k record) attribute_names) (map vars (a :: l))).
Proof.
  unfold DataFrame_of_records.
  assert (H : fold_left
                (fun acc record => acc ++ filter (fun k => negb (mem k acc)) (map fst record))
                (map vars (a :: l)) [] = attribute_names).
  { cbn [map fold_left]. apply columns_of_articles. reflexivity. }
  rewrite H. reflexivity.
Qed.

(** With at least one article the two files hold the header of the six
    column names and one row per article, in the order of collection. *)
Lemma create_report_rows (a : Article) (l : list Article) (out : string) :
  create_report (mkNewsScraper (a :: l) out)
  = Ok (mkReport "title,date,description,image_file_name,matches_count,has_money"
                 (map report_row (a :: l))
                 report_columns
                 (map report_row (a :: l))).
Proof.
  unfold create_report. cbn [articles].
  rewrite DataFrame_of_articles. unfold select. cbn [columns rows].
  replace (forallb (fun k => mem k attribute_names) report_columns) with true by reflexivity.
  cbn [bind columns rows]. rewrite !map_map.
  assert (Hrow : forall x : Article,
             map (fun k => nth (index_of k attribute_names)
                               (map (fun k0 => get_cell k0 (vars x)) attribute_names) CNone)
                 report_columns = report_row x) by (intros x; reflexivity).
  rewrite (map_ext _ _ Hrow). reflexivity.
Qed.

(** ** The collection loop *)

Section LoopProperties.
Variable b : Browser.
Variables term out : string.
Variable limit : DateTime.datetime.

Lemma collect_loop_nil script arts seen :
  collect_loop b term out limit script [] arts seen = mkOutcome None arts seen.
Proof. destruct script; reflexivity. Qed.

Lemma collect_loop_cons script pos el rest arts seen :
  collect_loop b term out limit script ((pos, el) :: rest) arts seen =
  match Article_init el term out with
  | Raise e => mkOutcome (Some e) arts (seen ++ [pos])
  | Ok a =>
      if before_limit limit a then mkOutcome None arts (seen ++ [pos])
      else
        match download_image (urlretrieve b) a with
        | Raise e => mkOutcome (Some e) (arts ++ [a]) (seen ++ [pos])
        | Ok _ =>
            match rest with
            | _ :: _ => collect_loop b term out limit script rest (arts ++ [a]) (seen ++ [pos])
            | [] => next_page b term out limit script (arts ++ [a]) (seen ++ [pos])
            end
        end
  end.
Proof.
  destruct script as [|[| |reread] script]; cbn;
    destruct (Article_init el term out) as [a|e]; try reflexivity;
    destruct (before_limit limit a); try reflexivity;
    destruct (download_image (urlretrieve b) a); try reflexivity;
    destruct rest; reflexivity.
Qed.

(** A relation between the state of the loop and its outcome that holds
    when the loop leaves, and is kept over a visit and over the append of
    an article that is not before the limit, holds of every run. *)
Section Appended.
Variable P : list Article -> list nat -> Outcome -> Prop.
Hypothesis P_leave : forall r arts seen, P arts seen (mkOutcome r arts seen).
Hypothesis P_visit : forall arts seen pos o, P arts (seen ++ [pos]) o -> P arts seen o.
Hypothesis P_append : forall arts seen a o,
    before_limit limit a = false -> P (arts ++ [a]) seen o -> P arts seen o.

Lemma scan_appended script :
  (forall arts seen, P arts seen (next_page b term out limit script arts seen)) ->
  forall elems arts seen, P arts seen (collect_loop b term out limit script elems arts seen).
Proof.
  intros Hnext elems. induction elems as [|[pos el] rest IHr]; intros arts seen.
  - rewrite collect_loop_nil. apply P_leave.
  - rewrite collect_loop_cons.
    apply (P_visit _ _ pos).
    destruct (Article_init el term out) as [a|e]; [|apply P_leave].
    destruct (before_limit limit a) eqn:Hb; [apply P_leave|].
    apply (P_append _ _ a _ Hb).
    destruct (download_image (urlretrieve b) a); [|apply P_leave].
    destruct rest; [apply Hnext | apply IHr].
Qed.

Lemma collect_loop_appended script :
  forall elems arts seen, P arts seen (collect_loop b term out limit script elems arts seen).
Proof.
  induction script as [|r script IH]; apply scan_appended; intros arts seen.
  - apply P_leave.
  - destruct r as [| |reread]; cbn [next_page]; try apply P_leave.
    destruct (_get_web_elements reread); [apply IH | apply P_leave].
Qed.
End Appended.

(** Every run only appends, and what it appends is not before the limit. *)
Lemma collect_loop_appends script elems arts seen :
  exists added,
    final_articles (collect_loop b term out limit script elems arts seen) = arts ++ added /\
    Forall (fun a => before_limit limit a = false) added.
Proof.
  apply (collect_loop_appended
           (fun arts _ o => exists added,
                final_articles o = arts ++ added /\
                Forall (fun a => before_limit limit a = false) added)).
  - intros r arts0 seen0. exists []. split; [cbn; now rewrite app_nil_r | constructor].
  - intros arts0 seen0 pos o H; exact H.
  - intros arts0 seen0 a o Hb (added & Hf & Hall). exists (a :: added). split.
    + rewrite Hf, <- app_assoc. reflexivity.
    + constructor; assumption.
Qed.

(** An article before the limit ends the run at once, and is left out. *)
Lemma collect_loop_before_limit script pos el rest arts seen a :
  Article_init el term out = Ok a ->
  before_limit limit a = true ->
  collect_loop b term out limit script ((pos, el) :: rest) arts seen
  = mkOutcome None arts (seen ++ [pos]).
Proof.
  intros Ha Hb. rewrite collect_loop_cons, Ha, Hb. reflexivity.
Qed.

End LoopProperties.

Lemma collect_articles_not_before_limit self b today term n :
  exists added,
    final_articles (collect_articles self b today term n) = articles self ++ added /\
    Forall (fun a => before_limit (compute_limit_date today n) a = false) added.
Proof.
  unfold collect_articles.
  destruct (fst (prepare_search b term)) as [[l|]|e];
    try (exists []; split; [cbn; now rewrite app_nil_r | constructor]).
  apply collect_loop_appends.
Qed.

(** C1: a run of [collect_articles] only appends to the session list, none
    of the appended articles has a date before the limit date, and an
    article with such a date ends the loop at once: no exception, nothing
    appended, no further node visited. *)
Theorem collection_stops_before_limit :
  (forall self b today term n,
      exists added,
        final_articles (collect_articles self b today term n) = articles self ++ added /\
        Forall (fun a => before_limit (compute_limit_date today n) a = false) added) /\
  (forall b term out limit script pos el rest arts seen a,
      Article_init el term out = Ok a ->
      before_limit limit a = true ->
      collect_loop b term out limit script ((pos, el) :: rest) arts seen
      = mkOutcome None arts (seen ++ [pos])).
Proof.
  split.
  - exact collect_articles_not_before_limit.
  - intros b term out limit script pos el rest arts seen a Ha Hb.
    exact (collect_loop_before_limit b term out limit script pos el rest arts seen a Ha Hb).
Qed.

Lemma collection_stops_before_limit_witness :
  collect_loop (plain_site [] []) "oil" "out" sample_limit
               [Loaded [sample_node "1 Jan 2024"]]
               [(0, sample_node "19 Jan 2024"); (1, sample_node "21 Jan 2024")] [] []
  = mkOutcome None [] [0].
Proof.
  exact (proj2 collection_stops_before_limit (plain_site [] []) "oil" "out" sample_limit
           [Loaded [sample_node "1 Jan 2024"]] 0 (sample_node "19 Jan 2024")
           [(1, sample_node "21 Jan 2024")] [] [] _ eq_refl eq_refl).
Defined.

(** ** Pagination *)

Lemma skipn_combine_seq {A} (l : list A) :
  forall s k,
    skipn k (combine (seq s (length l)) l) = combine (seq (s + k) (length l - k)) (skipn k l).
Proof.
  induction l as [|x l IH]; intros s k.
  - destruct k; reflexivity.
  - destruct k as [|k].
    + cbn [skipn]. now rewrite Nat.add_0_r, Nat.sub_0_r.
    + cbn [length seq combine skipn]. rewrite IH.
      replace (S s + k) with (s + S k) by lia. reflexivity.
Qed.

Lemma skipn_indexed_cons {A} (l : list A) k pos el rest :
  skipn k (indexed l) = (pos, el) :: rest ->
  pos = k /\ rest = skipn (S k) (indexed l).
Proof.
  intros H. split.
  - unfold indexed in H. rewrite skipn_combine_seq in H. cbn [Nat.add] in H.
    destruct (length l - k) as [|m]; [discriminate|].
    cbn [seq combine] in H. destruct (skipn k l); [discriminate|].
    now injection H as <- _ _.
  - change (S k) with (1 + k). rewrite <- skipn_skipn, H. reflexivity.
Qed.

(** The entries after the first [K] are the nodes at the positions from [K]. *)
Lemma skipn_indexed_positions {A} (l : list A) K :
  Forall (fun pe => K <= fst pe) (skipn K (indexed l)) /\
  map snd (skipn K (indexed l)) = skipn K l.
Proof.
  unfold indexed. rewrite skipn_combine_seq. cbn [Nat.add].
  assert (Hlen : length (skipn K l) = length l - K) by apply length_skipn.
  rewrite <- Hlen. generalize (skipn K l) as l'. intros l'. clear Hlen.
  generalize K as s. induction l' as [|x l' IH]; intros s; cbn.
  - split; constructor.
  - destruct (IH (S s)) as [H1 H2]. split.
    + constructor; [cbn; lia|]. eapply Forall_impl; [|exact H1]. cbn. intros; lia.
    + now rewrite H2.
Qed.

Lemma sorted_snoc (seen : list nat) (k : nat) :
  StronglySorted lt seen -> Forall (fun v => v < k) seen -> StronglySorted lt (seen ++ [k]).
Proof.
  induction 1 as [|v seen Hs IH Hv]; intros Hall; cbn.
  - repeat constructor.
  - inversion Hall as [|? ? Hvk Hrest]; subst. constructor; [now apply IH|].
    apply Forall_app. split; [exact Hv | repeat constructor; exact Hvk].
Qed.

Lemma below_snoc (seen : list nat) (k k' : nat) :
  Forall (fun v => v < k) seen -> k < k' -> Forall (fun v => v < k') (seen ++ [k]).
Proof.
  intros Hall Hlt. apply Forall_app. split.
  - eapply Forall_impl; [|exact Hall]. cbn. intros; lia.
  - repeat constructor. exact Hlt.
Qed.

Section Positions.
Variable b : Browser.
Variables term out : string.
Variable limit : DateTime.datetime.

Lemma scan_in_order script :
  (forall arts seen,
      StronglySorted lt seen -> Forall (fun v => v < length arts) seen ->
      StronglySorted lt (visited (next_page b term out limit script arts seen))) ->
  forall elems arts seen,
    in_order elems arts seen ->
    StronglySorted lt (visited (collect_loop b term out limit script elems arts seen)).
Proof.
  intros Hnext elems. induction elems as [|[pos el] rest IHr]; intros arts seen Hinv.
  - rewrite collect_loop_nil. destruct Hinv as (l & k & _ & _ & Hs & _). exact Hs.
  - destruct Hinv as (l & k & Hl & Hk & Hs & Hb).
    symmetry in Hl. destruct (skipn_indexed_cons _ _ _ _ _ Hl) as [-> Hrest].
    pose proof (sorted_snoc _ _ Hs Hb) as Hs'.
    pose proof (below_snoc seen k (S k) Hb (Nat.lt_succ_diag_r k)) as Hb'.
    rewrite collect_loop_cons.
    destruct (Article_init el term out) as [a|e]; [|exact Hs'].
    destruct (before_limit limit a); [exact Hs'|].
    destruct (download_image (urlretrieve b) a); [|exact Hs'].
    destruct rest as [|x rest'].
    + apply Hnext; [exact Hs'|].
      eapply Forall_impl; [|exact Hb']. cbn. intros v Hv. rewrite length_app. cbn. lia.
    + apply IHr. exists l, (S k). repeat split; try assumption.
      rewrite length_app. cbn. lia.
Qed.

Lemma collect_loop_in_order script :
  forall elems arts seen,
    in_order elems arts seen ->
    StronglySorted lt (visited (collect_loop b term out limit script elems arts seen)).
Proof.
  induction script as [|r script IH]; apply scan_in_order; intros arts seen Hs Hb.
  - exact Hs.
  - destruct r as [| |reread]; cbn [next_page]; try exact Hs.
    destruct (_get_web_elements reread) as [l|]; [|exact Hs].
    apply IH. exists l, (length arts). repeat split; auto.
Qed.

End Positions.

(** ** The session list *)

(** C8 (as stated, refuted): the second invocation of a task run starts
    from a session list that holds the articles of the first. *)
Lemma session_list_kept_counterexample :
  ~ Forall (fun session_list => session_list = [])
           (entries (collect_items (NewsScraper_init "out") [sample_item; sample_item])).
Proof.
  intros H. inversion H as [|? ? _ H2]; subst. inversion H2 as [|? ? Hnil _]; subst.
  discriminate Hnil.
Qed.

Lemma entries_cons (self : NewsScraper) (item : WorkItem) (items : list WorkItem) :
  entries (collect_items self (item :: items))
  = articles self ::
    match raised (collect_item self item) with
    | Some _ => []
    | None =>
        entries (collect_items
                   (mkNewsScraper (final_articles (collect_item self item))
                                  (scraper_output_dir self)) items)
    end.
Proof.
  cbn [collect_items].
  destruct (raised (collect_item self item)); reflexivity.
Qed.

Lemma collect_articles_appends self b today term n :
  exists added, final_articles (collect_articles self b today term n) = articles self ++ added.
Proof.
  destruct (collect_articles_not_before_limit self b today term n) as (added & H & _).
  now exists added.
Qed.

Lemma entries_chain (items : list WorkItem) :
  forall self i l1 l2,
    nth_error (entries (collect_items self items)) i = Some l1 ->
    nth_error (entries (collect_items self items)) (S i) = Some l2 ->
    exists added, l2 = l1 ++ added.
Proof.
  induction items as [|item items IH]; intros self i l1 l2.
  - destruct i; discriminate.
  - rewrite entries_cons. destruct (raised (collect_item self item)) eqn:Hr.
    + destruct i as [|[|i]]; discriminate.
    + destruct i as [|i]; cbn [nth_error].
      * intros [= <-] H2. destruct items as [|item' items']; [discriminate|].
        rewrite entries_cons in H2. cbn [nth_error articles] in H2. injection H2 as <-.
        apply collect_articles_appends.
      * apply IH.
Qed.

(** C8 (amended): the session list is empty when the scraper is
    constructed and is not emptied afterwards: the first invocation of
    [collect_articles] starts from the list of the scraper, every later one
    from the list the invocation before it left, and an invocation only
    appends to the list it starts from. *)
Theorem session_list_accumulates :
  (forall out, articles (NewsScraper_init out) = []) /\
  (forall self b today term n,
      exists added,
        final_articles (collect_articles self b today term n) = articles self ++ added) /\
  (forall self item items,
      raised (collect_item self item) = None ->
      entries (collect_items self (item :: items))
      = articles self ::
        entries (collect_items
                   (mkNewsScraper (final_articles (collect_item self item))
                                  (scraper_output_dir self)) items)) /\
  (forall self items i l1 l2,
      nth_error (entries (collect_items self items)) i = Some l1 ->
      nth_error (entries (collect_items self items)) (S i) = Some l2 ->
      exists added, l2 = l1 ++ added).
Proof.
  split; [|split; [|split]].
  - reflexivity.
  - exact collect_articles_appends.
  - intros self item items Hr. rewrite entries_cons, Hr. reflexivity.
  - intros self items. apply entries_chain.
Qed.

Lemma session_list_accumulates_witness :
  entries (collect_items (NewsScraper_init "out") [sample_item; sample_item])
  = [] :: entries (collect_items
                     (mkNewsScraper
                        (final_articles (collect_item (NewsScraper_init "out") sample_item))
                        "out") [sample_item]) /\
  (exists added,
      final_articles (collect_item (NewsScraper_init "out") sample_item) = [] ++ added).
Proof.
  split.
  - exact (proj1 (proj2 (proj2 session_list_accumulates))
             (NewsScraper_init "out") sample_item [sample_item] eq_refl).
  - exact (proj2 (proj2 (proj2 session_list_accumulates))
             (NewsScraper_init "out") [sample_item; sample_item] 0 []
             (final_articles (collect_item (NewsScraper_init "out") sample_item))
             eq_refl eq_refl).
Defined.

Lemma limit_date_months_witness :
  collect_articles (NewsScraper_init "out") (plain_site sample_page []) 
                   (DateTime.mkdatetime 2024 3 15 9 30 0 0) "oil" 2
  = collect_loop (plain_site sample_page []) "oil" "out"
                 (DateTime.mkdatetime 2024 1 15 9 30 0 0) [] (indexed sample_page) [] [].
Proof.
  exact (proj2 (proj2 limit_date_months) (NewsScraper_init "out") (plain_site sample_page [])
           (DateTime.mkdatetime 2024 3 15 9 30 0 0) "oil" 2%Z sample_page eq_refl).
Defined.

(** * Further properties of the code *)

(** ** Splitting and counting *)

Lemma startswith_append (p s : string) : PyStr.startswith p (p ++ s) = true.
Proof.
  induction p as [|c p IH]; cbn; [reflexivity|]. now rewrite Ascii.eqb_refl, IH.
Qed.

Lemma startswith_inv (p s : string) :
  PyStr.startswith p s = true -> exists after, s = (p ++ after)%string.
Proof.
  revert s; induction p as [|c p IH]; intros s H.
  - now exists s.
  - destruct s as [|x s]; [discriminate|]. cbn in H.
    apply andb_true_iff in H as [Hc Hp]. apply Ascii.eqb_eq in Hc as <-.
    destruct (IH _ Hp) as [after ->]. now exists after.
Qed.

Lemma startswith_length (p s : string) :
  PyStr.startswith p s = true -> String.length p <= String.length s.
Proof.
  revert s; induction p as [|c p IH]; intros [|x s] H; cbn in *; try lia; try discriminate.
  apply andb_true_iff in H as [_ Hp]. specialize (IH _ Hp). lia.
Qed.

Lemma string_app_assoc (a b c : string) : ((a ++ b) ++ c = a ++ (b ++ c))%string.
Proof. induction a as [|x a IH]; cbn; [reflexivity | now rewrite IH]. Qed.

Lemma string_app_nil_r (a : string) : (a ++ EmptyString)%string = a.
Proof. induction a as [|x a IH]; cbn; [reflexivity | now rewrite IH]. Qed.

(** [len(s.split(sep)) == s.count(sep) + 1] *)
Lemma split_from_length (sep s : string) :
  sep <> EmptyString ->
  forall skip cur,
    length (PyStr.split_from sep s skip cur) = S (PyStr.count_from sep s skip).
Proof.
  intros Hsep. induction s as [|c s IH]; intros skip cur.
  - destruct sep; [contradiction | reflexivity].
  - cbn [PyStr.split_from PyStr.count_from]. destruct skip as [|k]; [|apply IH].
    destruct (PyStr.startswith sep (String c s)); cbn [length]; now rewrite IH.
Qed.

Lemma count_zero_iff (sep s : string) :
  PyStr.count s sep = 0 <-> ~ contains s sep.
Proof.
  unfold PyStr.count, contains. induction s as [|c s IH].
  - destruct sep as [|x sep]; cbn.
    + split; [discriminate|]. intros H. exfalso. apply H. now exists EmptyString, EmptyString.
    + split; [|reflexivity]. intros _ (before & after & H).
      destruct before; discriminate H.
  - cbn [PyStr.count_from]. destruct (PyStr.startswith sep (String c s)) eqn:Hst.
    + split; [discriminate|]. intros H. exfalso. apply H.
      destruct (startswith_inv _ _ Hst) as [after ->]. now exists EmptyString, after.
    + rewrite IH. split.
      * intros Hno (before & after & H). destruct before as [|x before].
        -- cbn in H. rewrite H, startswith_append in Hst. discriminate.
        -- cbn in H. injection H as _ H. apply Hno. now exists before, after.
      * intros Hno (before & after & H). apply Hno.
        exists (String c before), after. cbn. now rewrite H.
Qed.

Lemma count_nonzero_contains (sep s : string) :
  PyStr.count s sep <> 0 -> contains s sep.
Proof.
  unfold PyStr.count, contains. induction s as [|c s IH].
  - destruct sep; cbn; [|congruence]. intros _. now exists EmptyString, EmptyString.
  - cbn [PyStr.count_from]. destruct (PyStr.startswith sep (String c s)) eqn:Hst.
    + intros _. destruct (startswith_inv _ _ Hst) as [after ->]. now exists EmptyString, after.
    + intros H. destruct (IH H) as (before & after & ->).
      now exists (String c before), after.
Qed.

Lemma split_from_skip (sep x s cur : string) :
  PyStr.split_from sep (x ++ s) (String.length x) cur = PyStr.split_from sep s 0 cur.
Proof.
  induction x as [|c x IH]; [reflexivity|]. cbn. exact IH.
Qed.

Lemma split_from_found (sep s cur : string) :
  sep <> EmptyString ->
  PyStr.split_from sep (sep ++ s) 0 cur = cur :: PyStr.split_from sep s 0 EmptyString.
Proof.
  intros Hsep. destruct sep as [|c sep]; [contradiction|].
  change ((String c sep ++ s)%string) with (String c (sep ++ s)).
  cbn [PyStr.split_from].
  change (String c (sep ++ s)) with ((String c sep ++ s)%string).
  rewrite startswith_append.
  replace (String.length (String c sep) - 1) with (String.length sep) by (cbn; lia).
  now rewrite split_from_skip.
Qed.

Lemma split_from_pass (c : ascii) (sep p s cur : string) :
  lacks c p = true ->
  PyStr.split_from (String c sep) (p ++ s) 0 cur
  = PyStr.split_from (String c sep) s 0 (cur ++ p).
Proof.
  revert cur; induction p as [|x p IH]; intros cur Hp.
  - now rewrite string_app_nil_r.
  - cbn in Hp. apply andb_true_iff in Hp as [Hx Hp].
    change ((String x p ++ s)%string) with (String x (p ++ s)).
    cbn [PyStr.split_from PyStr.startswith].
    apply negb_true_iff in Hx. rewrite Hx. cbn [andb].
    rewrite (IH _ Hp), string_app_assoc. reflexivity.
Qed.

Lemma split_from_head (sep s : string) :
  forall skip cur, exists more rest,
    PyStr.split_from sep s skip cur = (cur ++ more)%string :: rest.
Proof.
  induction s as [|c s IH]; intros skip cur.
  - exists EmptyString, []. cbn. now rewrite string_app_nil_r.
  - cbn [PyStr.split_from]. destruct skip as [|k]; [|apply IH].
    destruct (PyStr.startswith sep (String c s)).
    + exists EmptyString. eexists. now rewrite string_app_nil_r.
    + destruct (IH 0 (cur ++ String c EmptyString)%string) as (more & rest & ->).
      exists (String c more), rest. now rewrite string_app_assoc.
Qed.

(** ** The image of an article *)

(** X1: [_parse_image_url] gives no image when the node has none, raises
    [AttributeError] when the image has no [src], raises [IndexError]
    exactly when the [src] does not contain the marker, and otherwise
    returns the [src] unchanged with a file name that ends in ".jpeg". *)
Theorem parse_image_url_cases (el : WebElement) :
  (img_node el = None -> _parse_image_url el = Ok (None, None)) /\
  (img_node el = Some None -> _parse_image_url el = Raise AttributeError) /\
  (forall url, img_node el = Some (Some url) ->
     (_parse_image_url el = Raise IndexError <-> ~ contains url tbn_marker) /\
     (contains url tbn_marker ->
      exists file_name,
        _parse_image_url el = Ok (Some url, Some file_name) /\ endswith file_name ".jpeg")).
Proof.
  unfold _parse_image_url. split; [|split].
  - intros ->. reflexivity.
  - intros ->. reflexivity.
  - intros url ->. fold tbn_marker. unfold bind.
    pose proof (split_from_length tbn_marker url ltac:(discriminate) 0 EmptyString) as Hlen.
    fold (PyStr.split url tbn_marker) in Hlen. fold (PyStr.count url tbn_marker) in Hlen.
    rewrite <- count_zero_iff.
    assert (Hname : forall after, exists name,
               PyStr.getitem (PyStr.split after "&") 0 = Ok name).
    { intros after. unfold PyStr.split.
      destruct (split_from_head "&" after 0 EmptyString) as (more & rest & ->).
      eexists. reflexivity. }
    destruct (PyStr.split url tbn_marker) as [|s0 [|s1 l]] eqn:Hs; cbn [length] in Hlen.
    + discriminate.
    + change (PyStr.getitem [s0] 1) with (@Raise string IndexError). cbv beta iota.
      split; [split; [lia | reflexivity]|].
      intros Hc. apply count_zero_iff in Hc; [easy | lia].
    + change (PyStr.getitem (s0 :: s1 :: l) 1) with (Ok s1). cbv beta iota.
      destruct (Hname s1) as [name ->]. split.
      * split; [discriminate | lia].
      * intros _. eexists. split; [reflexivity|]. now exists name.
Qed.

Lemma parse_image_url_cases_witness :
  _parse_image_url (mkWebElement None None None (Some (Some "https://e.com/images?x=1")))
  = Raise IndexError.
Proof.
  apply (proj2 (proj2 (parse_image_url_cases
                         (mkWebElement None None None (Some (Some "https://e.com/images?x=1")))))
           "https://e.com/images?x=1" eq_refl).
  apply count_zero_iff. reflexivity.
Defined.

(** X2: when the [src] is [prefix ?q=tbn: name tail], with no question
    mark in the prefix, neither question mark nor ampersand in the name, and
    a tail that is empty or starts with an ampersand, the file name is the
    name followed by ".jpeg". *)
Theorem parse_image_url_name (el : WebElement) (prefix name tail : string) :
  img_node el = Some (Some (prefix ++ tbn_marker ++ name ++ tail)%string) ->
  lacks "?" prefix = true ->
  lacks "?" name = true ->
  lacks "&" name = true ->
  tail = EmptyString \/ (exists rest, tail = String "&" rest) ->
  _parse_image_url el
  = Ok (Some (prefix ++ tbn_marker ++ name ++ tail)%string, Some (name ++ ".jpeg")%string).
Proof.
  intros Himg Hp Hn1 Hn2 Htail. unfold _parse_image_url. rewrite Himg. fold tbn_marker.
  assert (Hsplit : exists more rest,
             PyStr.split (prefix ++ tbn_marker ++ name ++ tail) tbn_marker
             = prefix :: (name ++ more)%string :: rest /\
             (more = EmptyString \/ exists more', more = String "&" more')).
  { unfold PyStr.split, tbn_marker.
    rewrite (split_from_pass "?" "q=tbn:" prefix _ EmptyString Hp).
    rewrite split_from_found by discriminate.
    rewrite (split_from_pass "?" "q=tbn:" name _ EmptyString Hn1).
    cbn [append]. destruct Htail as [-> | [rest ->]].
    - exists EmptyString, []. cbn. rewrite string_app_nil_r. split; [reflexivity | now left].
    - change (String "&" rest) with ("&" ++ rest)%string.
      rewrite (split_from_pass "?" "q=tbn:" "&" rest name eq_refl).
      destruct (split_from_head "?q=tbn:" rest 0 (name ++ "&")) as (more & l & ->).
      exists (String "&" more), l. rewrite string_app_assoc. split; [reflexivity|].
      right. now exists more. }
  destruct Hsplit as (more & rest & -> & Hmore).
  change (PyStr.getitem (prefix :: (name ++ more)%string :: rest) 1) with (Ok (name ++ more)%string).
  cbn [bind].
  assert (Hname : PyStr.getitem (PyStr.split (name ++ more) "&") 0 = Ok name).
  { unfold PyStr.split.
    rewrite (split_from_pass "&" EmptyString name _ EmptyString Hn2). cbn [append].
    destruct Hmore as [-> | [more' ->]]; [reflexivity|].
    change (String "&" more') with ("&" ++ more')%string.
    rewrite split_from_found by discriminate. reflexivity. }
  rewrite Hname. reflexivity.
Qed.

Lemma parse_image_url_name_witness :
  _parse_image_url
    (mkWebElement None None None
       (Some (Some "https://e.com/images?q=tbn:ANd9GcQx&s=10")))
  = Ok (Some "https://e.com/images?q=tbn:ANd9GcQx&s=10", Some "ANd9GcQx.jpeg").
Proof.
  apply (parse_image_url_name
           (mkWebElement None None None
              (Some (Some "https://e.com/images?q=tbn:ANd9GcQx&s=10")))
           "https://e.com/images" "ANd9GcQx" "&s=10");
    try reflexivity.
  right. now exists "s=10".
Defined.

(** X3: a constructed article has an image URL exactly when it has an
    image file name, which is then the case exactly when the node has an
    image; the URL contains the marker and is not empty, so that
    [download_image] finds a file name whenever it does not return early. *)
Theorem image_fields_together (el : WebElement) (term out : string) (a : Article) :
  Article_init el term out = Ok a ->
  (image_url a = None <-> img_node el = None) /\
  (image_url a = None <-> image_file_name a = None) /\
  (forall url, image_url a = Some url ->
     contains url tbn_marker /\ truthy (image_url a) = true /\
     exists file_name, image_file_name a = Some file_name /\ endswith file_name ".jpeg").
Proof.
  unfold Article_init, bind.
  destruct (_parse_date el) as [d|e]; [|discriminate].
  destruct (parse_image_url_cases el) as (Hnone & Hattr & Hsome).
  destruct (img_node el) as [[url|]|] eqn:Himg.
  - destruct (Hsome url eq_refl) as [Hidx Hok].
    destruct (_parse_image_url el) as [[u f]|e] eqn:Hp; [|discriminate].
    intros H; injection H as <-. cbn.
    assert (Hc : contains url tbn_marker).
    { destruct (PeanoNat.Nat.eq_dec (PyStr.count url tbn_marker) 0) as [H0|H0].
      - apply count_zero_iff, Hidx in H0. discriminate.
      - now apply count_nonzero_contains. }
    destruct (Hok Hc) as (file_name & Hf & Hend).
    injection Hf as Hu Hfn. subst u f.
    split; [split; discriminate|]. split; [split; discriminate|].
    intros u' [= <-]. split; [exact Hc|]. split.
    + destruct Hc as (before & after & ->). destruct before; reflexivity.
    + exists file_name. split; [reflexivity | exact Hend].
  - rewrite (Hattr eq_refl). discriminate.
  - rewrite (Hnone eq_refl). intros H; injection H as <-. cbn.
    repeat split; try reflexivity; discriminate.
Qed.

Lemma image_fields_together_witness :
  exists a,
    Article_init (mkWebElement None None None (Some (Some "https://e.com/i?q=tbn:XYZ&s")))
                 "t" "out" = Ok a /\
    (image_url a = None <-> image_file_name a = None) /\
    contains "https://e.com/i?q=tbn:XYZ&s" tbn_marker.
Proof.
  eexists; split; [reflexivity|].
  destruct (image_fields_together
              (mkWebElement None None None (Some (Some "https://e.com/i?q=tbn:XYZ&s")))
              "t" "out" _ eq_refl) as (_ & Hboth & Hurl).
  split; [exact Hboth | exact (proj1 (Hurl _ eq_refl))].
Defined.

(** ** The date of an article *)

Lemma Article_init_date (el : WebElement) (term out : string) (a : Article) :
  Article_init el term out = Ok a -> _parse_date el = Ok (date a).
Proof.
  unfold Article_init, bind.
  destruct (_parse_date el) as [d|e]; [|discriminate].
  destruct (_parse_image_url el) as [[u f]|e]; [|discriminate].
  intros H; injection H as <-. reflexivity.
Qed.

(** X4: a "Last update" prefix of the date text does not change the date:
    the text with the prefix is parsed as the text without it, as long as
    something follows the prefix; the prefix alone raises [ValueError]. *)
Theorem last_update_prefix_ignored :
  (forall t, cleaned ("Last update" ++ t) = cleaned t) /\
  (forall el1 el2 t,
      date_node el1 = Some ("Last update" ++ t)%string ->
      date_node el2 = Some t ->
      t <> EmptyString ->
      _parse_date el1 = _parse_date el2) /\
  (forall el, date_node el = Some "Last update" -> _parse_date el = Raise ValueError).
Proof.
  assert (Hclean : forall t, cleaned ("Last update" ++ t) = cleaned t).
  { intros t. reflexivity. }
  split; [exact Hclean|]. split.
  - intros el1 el2 t H1 H2 Hne.
    destruct (parse_date_truthy el1) as (t1 & Ht1 & ->); [now rewrite H1|].
    destruct (parse_date_truthy el2) as (t2 & Ht2 & ->).
    { rewrite H2. destruct t; [contradiction | reflexivity]. }
    rewrite H1 in Ht1. rewrite H2 in Ht2. injection Ht1 as <-. injection Ht2 as <-.
    exact (f_equal (fun x => bind (DateTime.strptime x) (fun d => Ok (Some d))) (Hclean t)).
  - intros el H. unfold _parse_date. rewrite H. reflexivity.
Qed.

Lemma last_update_prefix_ignored_witness :
  _parse_date (mkWebElement None (Some "Last update 15 Jan 2024") None None)
  = _parse_date (mkWebElement None (Some " 15 Jan 2024") None None) /\
  _parse_date (mkWebElement None (Some "Last update") None None) = Raise ValueError.
Proof.
  split.
  - apply (proj1 (proj2 last_update_prefix_ignored)
             (mkWebElement None (Some "Last update 15 Jan 2024") None None)
             (mkWebElement None (Some " 15 Jan 2024") None None)
             " 15 Jan 2024" eq_refl eq_refl).
    discriminate.
  - apply (proj2 (proj2 last_update_prefix_ignored)
             (mkWebElement None (Some "Last update") None None) eq_refl).
Defined.

Lemma in_range_bounds (lo hi : nat) (c : ascii) :
  DateTime.in_range lo hi c = true -> lo <= nat_of_ascii c <= hi.
Proof.
  unfold DateTime.in_range. intros H. apply andb_true_iff in H as [H1 H2].
  apply Nat.leb_le in H1, H2. lia.
Qed.

Lemma is_digit_bounds (c : ascii) :
  PyStr.is_digit c = true -> 48 <= nat_of_ascii c <= 57.
Proof.
  unfold PyStr.is_digit. intros H. apply andb_true_iff in H as [H1 H2].
  apply Nat.leb_le in H1, H2. lia.
Qed.

Lemma eqb_code (a c : ascii) : Ascii.eqb a c = true -> nat_of_ascii a = nat_of_ascii c.
Proof. intros H. apply Ascii.eqb_eq in H. now subst. Qed.

Ltac char_facts :=
  repeat match goal with
    | H : (_ && _)%bool = true |- _ => apply andb_true_iff in H; destruct H
    | H : Ascii.eqb _ _ = true |- _ => apply eqb_code in H
    | H : DateTime.in_range _ _ _ = true |- _ => apply in_range_bounds in H
    | H : PyStr.is_digit _ = true |- _ => apply is_digit_bounds in H
    end;
  change (nat_of_ascii "3") with 51 in *;
  change (nat_of_ascii "0") with 48 in *;
  change (nat_of_ascii " ") with 32 in *.

Lemma day_candidates_range (s r : string) (v : Z) :
  In (v, r) (DateTime.day_candidates s) -> (1 <= v <= 31)%Z.
Proof.
  unfold DateTime.day_candidates. destruct s as [|a r1]; [intros []|].
  destruct r1 as [|b r2]; intros H;
    repeat match goal with
      | H : In _ (_ ++ _) |- _ => apply in_app_or in H; destruct H as [H|H]
      | H : In _ (if ?c then _ else _) |- _ => destruct c eqn:?
      | H : In _ [] |- _ => destruct H
      | H : In _ [_] |- _ => destruct H as [H|[]]; apply pair_equal_spec in H; destruct H as [<- _]
      end;
    char_facts; unfold DateTime.digit_val; lia.
Qed.

Lemma first_match_in (cands : list (Z * string)) d m y rest :
  DateTime.first_match cands = Some (d, m, y, rest) ->
  exists r, In (d, r) cands /\ DateTime.parse_tail r = Some (m, y, rest).
Proof.
  induction cands as [|[d' r'] cands IH]; cbn; [discriminate|].
  destruct (DateTime.parse_tail r') as [[[m' y'] rest']|] eqn:Ht.
  - intros [= <- <- <- <-]. exists r'. split; [now left | exact Ht].
  - intros H. destruct (IH H) as (r & Hin & Hr). exists r. split; [now right | exact Hr].
Qed.

Lemma assoc_month_range (k : string) (m : Z) :
  DateTime.assoc k DateTime.month_abbr = Some m -> (1 <= m <= 12)%Z.
Proof.
  unfold DateTime.month_abbr. cbn [DateTime.assoc].
  repeat (destruct (String.eqb k _); [intros [= <-]; lia|]). discriminate.
Qed.

Lemma parse_tail_range (s rest : string) (m y : Z) :
  DateTime.parse_tail s = Some (m, y, rest) -> (1 <= m <= 12)%Z /\ (0 <= y <= 9999)%Z.
Proof.
  unfold DateTime.parse_tail.
  destruct (DateTime.spaces1 s) as [s1|]; [|discriminate].
  destruct (DateTime.parse_month s1) as [[m' s2]|] eqn:Hm; [|discriminate].
  destruct (DateTime.spaces1 s2) as [s3|]; [|discriminate].
  destruct (DateTime.parse_year s3) as [[y' s4]|] eqn:Hy; [|discriminate].
  intros [= <- <- <-]. split.
  - unfold DateTime.parse_month in Hm.
    destruct s1 as [|a [|b [|c r]]]; try discriminate.
    destruct (DateTime.assoc _ DateTime.month_abbr) as [m0|] eqn:Ha; [|discriminate].
    injection Hm as <- _. exact (assoc_month_range _ _ Ha).
  - unfold DateTime.parse_year in Hy.
    destruct s3 as [|a [|b [|c [|d r]]]]; try discriminate.
    destruct (PyStr.is_digit a && PyStr.is_digit b && PyStr.is_digit c && PyStr.is_digit d)%bool
      eqn:Hd; [|discriminate].
    apply (f_equal (fun o => match o with Some (y, _) => y | None => 0%Z end)) in Hy.
    cbv beta iota in Hy. rewrite <- Hy.
    char_facts. unfold DateTime.digit_val. lia.
Qed.

Lemma strptime_calendar_date (s : string) (d : DateTime.datetime) :
  DateTime.strptime s = Ok d -> calendar_date d.
Proof.
  unfold DateTime.strptime.
  destruct (DateTime.first_match (DateTime.day_candidates s)) as [[[[dd m] y] rest]|] eqn:Hf;
    [|discriminate].
  destruct rest; [|discriminate].
  destruct ((y <? 1)%Z || (DateTime.days_in_month y m <? dd)%Z)%bool eqn:Hc; [discriminate|].
  intros [= <-]. apply orb_false_iff in Hc as [Hy Hd].
  apply Z.ltb_ge in Hy, Hd.
  destruct (first_match_in _ _ _ _ _ Hf) as (r & Hin & Ht).
  pose proof (day_candidates_range _ _ _ Hin).
  destruct (parse_tail_range _ _ _ _ Ht).
  unfold calendar_date. cbn. repeat split; lia.
Qed.

(** X5: the date of a constructed article, when there is one, is a date
    of the calendar (the day exists in its month, leap years included) at
    midnight. *)
Theorem article_date_is_calendar_date (el : WebElement) (term out : string) (a : Article)
    (d : DateTime.datetime) :
  Article_init el term out = Ok a ->
  date a = Some d ->
  calendar_date d.
Proof.
  intros H Hd. apply Article_init_date in H. rewrite Hd in H.
  destruct (truthy (date_node el)) eqn:Htr.
  - destruct (parse_date_truthy el Htr) as (t & _ & Hp). rewrite Hp in H.
    destruct (DateTime.strptime (cleaned t)) as [d'|e] eqn:Hs; [|discriminate].
    cbn in H. injection H as ->. exact (strptime_calendar_date _ _ Hs).
  - rewrite (parse_date_falsy el Htr) in H. discriminate.
Qed.

Lemma article_date_is_calendar_date_witness :
  calendar_date (DateTime.mkdatetime 2024 2 29 0 0 0 0).
Proof.
  apply (article_date_is_calendar_date
           (mkWebElement None (Some "29 Feb 2024") None None) "t" "out" _ _
           eq_refl eq_refl).
Defined.

(** ** Bounds on the match count *)

Lemma count_from_bound (sub s : string) :
  sub <> EmptyString ->
  forall skip, PyStr.count_from sub s skip * String.length sub <= String.length s - skip.
Proof.
  intros Hsub. induction s as [|c s IH]; intros skip.
  - destruct sub; [contradiction | cbn; lia].
  - cbn [PyStr.count_from]. destruct skip as [|k].
    + destruct (PyStr.startswith sub (String c s)) eqn:Hst.
      * apply startswith_length in Hst. cbn [String.length] in *.
        specialize (IH (String.length sub - 1)).
        destruct sub as [|x sub]; [contradiction|]. cbn [String.length] in *. lia.
      * specialize (IH 0). cbn [String.length]. lia.
    + specialize (IH k). cbn [String.length]. lia.
Qed.

(** ** Money mentions need a digit *)

Lemma get_no_digit (s : string) :
  no_digit s = true -> forall i c, String.get i s = Some c -> PyStr.is_digit c = false.
Proof.
  induction s as [|x s IH]; intros H i c; [destruct i; discriminate|].
  cbn in H. apply andb_true_iff in H as [Hx Hs]. destruct i as [|i]; cbn.
  - intros [= <-]. now apply negb_true_iff.
  - now apply IH.
Qed.

Lemma flat_map_none {A B} (f : A -> list B) (l : list A) :
  (forall x, f x = []) -> flat_map f l = [].
Proof. intros H. induction l as [|x l IH]; cbn; [reflexivity | now rewrite H, IH]. Qed.

Lemma dead_cat_l s r1 r2 : dead s r1 -> dead s (Regex.Cat r1 r2).
Proof. intros H i. cbn. now rewrite H. Qed.

Lemma dead_cat_r s r1 r2 : dead s r2 -> dead s (Regex.Cat r1 r2).
Proof. intros H i. cbn. now apply flat_map_none. Qed.

Lemma dead_digits s : no_digit s = true -> dead s (Regex.Plus (Regex.Cls PyStr.is_digit)).
Proof.
  intros H. apply dead_cat_l. intros i. cbn.
  destruct (String.get i s) as [c|] eqn:Hc; [|reflexivity].
  now rewrite (get_no_digit s H i c Hc).
Qed.

Lemma dead_search s r : dead s r -> Regex.search r s true = false.
Proof.
  intros H. unfold Regex.search. generalize (seq 0 (S (String.length s))) as l.
  induction l as [|i l IH]; cbn; [reflexivity|].
  unfold Regex.matches_at at 1. now rewrite H.
Qed.

Lemma money_patterns_dead s p :
  no_digit s = true -> In p Money.patterns -> dead s p.
Proof.
  intros H [<-|[<-|[<-|[]]]].
  - unfold Money.currency. cbn [Regex.Seq].
    do 4 apply dead_cat_r. apply dead_cat_l. now apply dead_digits.
  - unfold Money.dollars. cbn [Regex.Seq]. apply dead_cat_r, dead_cat_l. now apply dead_digits.
  - unfold Money.usd. cbn [Regex.Seq]. apply dead_cat_r, dead_cat_l. now apply dead_digits.
Qed.

Lemma and_search_no_digit p field :
  In p Money.patterns -> field_no_digit field = true -> and_search p field = false.
Proof.
  intros Hp Hf. unfold and_search. destruct field as [t|]; [|reflexivity].
  rewrite (dead_search t p (money_patterns_dead t p Hf Hp)). apply andb_false_r.
Qed.

(** X7: an article whose title and description hold no decimal digit is
    never flagged as mentioning money: each of the three patterns needs a
    digit (an amount spelt out, as in "twenty dollars", is not found). *)
Theorem no_digit_no_money (el : WebElement) (term out : string) (a : Article) :
  Article_init el term out = Ok a ->
  field_no_digit (title a) = true ->
  field_no_digit (description a) = true ->
  has_money a = false.
Proof.
  intros H Ht Hd.
  destruct (Article_init_fields _ _ _ _ H) as (_ & _ & _ & _ & ->).
  unfold _find_money_mentions.
  assert (Hall : forall ps, (forall p, In p ps -> In p Money.patterns) ->
                            find_in_patterns ps (title a) (description a) = false).
  { induction ps as [|p ps IH]; intros Hin; cbn [find_in_patterns]; [reflexivity|].
    rewrite (and_search_no_digit p _ (Hin p (or_introl eq_refl)) Ht).
    rewrite (and_search_no_digit p _ (Hin p (or_introl eq_refl)) Hd).
    apply IH. intros q Hq. apply Hin. now right. }
  apply Hall. auto.
Qed.

Lemma no_digit_no_money_witness :
  exists a,
    Article_init (mkWebElement (Some "Twenty dollars lost") None (Some "A $ sign, USD") None)
                 "t" "out" = Ok a /\
    has_money a = false.
Proof.
  eexists; split; [reflexivity|].
  apply (no_digit_no_money
           (mkWebElement (Some "Twenty dollars lost") None (Some "A $ sign, USD") None)
           "t" "out" _ eq_refl); reflexivity.
Defined.

(** ** The steps before the loop *)

Lemma perform_search_result (b : Browser) (term : string) :
  perform_search b term =
  if located b search_trigger then
    if intercepted b search_trigger
    then (Raise ElementClickInterceptedException, [Locate search_trigger; Click search_trigger])
    else if located b search_bar_input
         then (Ok tt, [Locate search_trigger; Click search_trigger; Locate search_bar_input;
                       SendKeys search_bar_input term; SendKeys search_bar_input RETURN])
         else (Raise AttributeError,
               [Locate search_trigger; Click search_trigger; Locate search_bar_input])
  else (Raise AttributeError, [Locate search_trigger]).
Proof.
  unfold perform_search, cmd_bind, _get_web_element, click, send_keys, cmd_raise.
  fold search_trigger. fold search_bar_input. cbn [fst snd].
  destruct (located b search_trigger); [|reflexivity].
  destruct (intercepted b search_trigger); [reflexivity|]. cbn [fst snd].
  destruct (located b search_bar_input); reflexivity.
Qed.

Lemma sort_by_date_result (b : Browser) :
  sort_by b "date" =
  if located b date_option then
    if intercepted b date_option
    then (Raise ElementClickInterceptedException, [Locate date_option; Click date_option])
    else (Ok tt, [Locate date_option; Click date_option])
  else (Raise AttributeError, [Locate date_option]).
Proof.
  unfold sort_by, cmd_bind, _get_web_element, click, cmd_raise.
  fold date_option. cbn [fst snd negb orb String.eqb Ascii.eqb Bool.eqb andb].
  destruct (located b date_option); [|reflexivity].
  destruct (intercepted b date_option); reflexivity.
Qed.

Lemma close_ad_result (b : Browser) :
  close_ad_in_search_results b =
  if located b ads_close_button
  then (Ok tt, [Locate ads_close_button; Click ads_close_button])
  else (Raise AttributeError, [Locate ads_close_button]).
Proof.
  unfold close_ad_in_search_results, cmd_bind, _get_web_element, click, cmd_raise.
  fold ads_close_button. cbn [fst snd].
  destruct (located b ads_close_button); [|reflexivity].
  destruct (intercepted b ads_close_button); reflexivity.
Qed.

(** The steps before the loop, case by case. *)
Lemma prepare_search_result (b : Browser) (term : string) :
  prepare_search b term =
  if located b search_trigger then
    if intercepted b search_trigger
    then (Raise ElementClickInterceptedException, [Locate search_trigger; Click search_trigger])
    else if located b search_bar_input then
      if located b date_option then
        if intercepted b date_option
        then (Raise ElementClickInterceptedException,
              [Locate search_trigger; Click search_trigger; Locate search_bar_input;
               SendKeys search_bar_input term; SendKeys search_bar_input RETURN;
               Locate date_option; Click date_option])
        else if located b ads_close_button
             then (Ok (_get_web_elements (first_read b)),
                   [Locate search_trigger; Click search_trigger; Locate search_bar_input;
                    SendKeys search_bar_input term; SendKeys search_bar_input RETURN;
                    Locate date_option; Click date_option;
                    Locate ads_close_button; Click ads_close_button;
                    Locate search_result_list; Locate "//article"])
             else (Raise AttributeError,
                   [Locate search_trigger; Click search_trigger; Locate search_bar_input;
                    SendKeys search_bar_input term; SendKeys search_bar_input RETURN;
                    Locate date_option; Click date_option; Locate ads_close_button])
      else (Raise AttributeError,
            [Locate search_trigger; Click search_trigger; Locate search_bar_input;
             SendKeys search_bar_input term; SendKeys search_bar_input RETURN;
             Locate date_option])
    else (Raise AttributeError,
          [Locate search_trigger; Click search_trigger; Locate search_bar_input])
  else (Raise AttributeError, [Locate search_trigger]).
Proof.
  unfold prepare_search.
  rewrite perform_search_result, sort_by_date_result, close_ad_result.
  destruct (located b search_trigger); [|reflexivity].
  destruct (intercepted b search_trigger); [reflexivity|].
  destruct (located b search_bar_input); [|reflexivity].
  destruct (located b date_option); [|reflexivity].
  destruct (intercepted b date_option); [reflexivity|].
  destruct (located b ads_close_button); reflexivity.
Qed.

(** X8: [close_ad_in_search_results] lets an intercepted click pass, but a
    page without the close button makes it raise [AttributeError]; a run of
    [collect_articles] on such a page fails and appends nothing. *)
Theorem close_ad_needs_button (b : Browser) :
  (located b ads_close_button = true ->
   close_ad_in_search_results b
   = (Ok tt, [Locate ads_close_button; Click ads_close_button])) /\
  (located b ads_close_button = false ->
   close_ad_in_search_results b = (Raise AttributeError, [Locate ads_close_button])) /\
  (located b ads_close_button = false ->
   forall self today term n,
     raised (collect_articles self b today term n) <> None /\
     final_articles (collect_articles self b today term n) = articles self /\
     visited (collect_articles self b today term n) = []).
Proof.
  split; [|split].
  - intros H. now rewrite close_ad_result, H.
  - intros H. now rewrite close_ad_result, H.
  - intros H self today term n. unfold collect_articles.
    rewrite prepare_search_result, H.
    destruct (located b search_trigger), (intercepted b search_trigger),
      (located b search_bar_input), (located b date_option), (intercepted b date_option);
      cbn; repeat split; discriminate.
Qed.

Lemma close_ad_needs_button_witness :
  close_ad_in_search_results
    (mkBrowser (fun x => negb (String.eqb x ads_close_button)) (fun _ => false) [] []
               (fun _ => true))
  = (Raise AttributeError, [Locate ads_close_button]).
Proof.
  apply (proj1 (proj2 (close_ad_needs_button
                         (mkBrowser (fun x => negb (String.eqb x ads_close_button))
                                    (fun _ => false) [] [] (fun _ => true))))).
  reflexivity.
Defined.

(** X9: the steps before the loop succeed exactly when the search trigger,
    the search input, the date option and the ad close button are all found
    and neither the click on the trigger nor the click on the option is
    intercepted; they then perform a fixed sequence of actions, the search
    phrase being typed before the return key, and hand over the nodes read. *)
Theorem prepare_search_succeeds (b : Browser) (term : string) :
  ((exists r, fst (prepare_search b term) = Ok r) <->
   located b search_trigger = true /\ intercepted b search_trigger = false /\
   located b search_bar_input = true /\
   located b date_option = true /\ intercepted b date_option = false /\
   located b ads_close_button = true) /\
  (forall r, fst (prepare_search b term) = Ok r ->
     r = _get_web_elements (first_read b) /\
     snd (prepare_search b term)
     = [Locate search_trigger; Click search_trigger;
        Locate search_bar_input; SendKeys search_bar_input term;
        SendKeys search_bar_input RETURN;
        Locate date_option; Click date_option;
        Locate ads_close_button; Click ads_close_button;
        Locate search_result_list; Locate "//article"]).
Proof.
  rewrite prepare_search_result.
  destruct (located b search_trigger), (intercepted b search_trigger),
    (located b search_bar_input), (located b date_option), (intercepted b date_option),
    (located b ads_close_button); cbn [fst snd]; split;
    try (split;
         solve [ intros [r Hr]; discriminate Hr
               | intros (? & ? & ? & ? & ? & ?); discriminate
               | intros _; repeat split
               | intros _; eexists; reflexivity ]);
    intros r Hr; try discriminate Hr; injection Hr as <-; split; reflexivity.
Qed.

Lemma prepare_search_succeeds_witness :
  snd (prepare_search (plain_site [] []) "oil")
  = [Locate search_trigger; Click search_trigger;
     Locate search_bar_input; SendKeys search_bar_input "oil";
     SendKeys search_bar_input RETURN;
     Locate date_option; Click date_option;
     Locate ads_close_button; Click ads_close_button;
     Locate search_result_list; Locate "//article"].
Proof.
  exact (proj2 (proj2 (prepare_search_succeeds (plain_site [] []) "oil") _ eq_refl)).
Defined.

(** ** Runs of the loop *)

Section Runs.
Variable b : Browser.
Variables term out : string.
Variable limit : DateTime.datetime.

Lemma counted_leave r arts seen : counted arts seen (mkOutcome r arts seen).
Proof. exists [], []. cbn. rewrite !app_nil_r. repeat split; lia. Qed.

Lemma counted_stop r arts seen pos : counted arts seen (mkOutcome r arts (seen ++ [pos])).
Proof. exists [], [pos]. cbn. rewrite app_nil_r. repeat split; lia. Qed.

Lemma counted_step arts seen a pos o :
  counted (arts ++ [a]) (seen ++ [pos]) o -> counted arts seen o.
Proof.
  intros (added & extra & Hf & Hv & Hl). exists (a :: added), (pos :: extra).
  rewrite Hf, Hv, <- !app_assoc. cbn. repeat split; lia.
Qed.

Lemma scan_counted script :
  (forall arts seen, counted arts seen (next_page b term out limit script arts seen)) ->
  forall elems arts seen,
    counted arts seen (collect_loop b term out limit script elems arts seen).
Proof.
  intros Hnext elems. induction elems as [|[pos el] rest IHr]; intros arts seen.
  - rewrite collect_loop_nil. apply counted_leave.
  - rewrite collect_loop_cons.
    destruct (Article_init el term out) as [a|e]; [|apply counted_stop].
    destruct (before_limit limit a); [apply counted_stop|].
    apply (counted_step _ _ a pos).
    destruct (download_image (urlretrieve b) a); [|apply counted_leave].
    destruct rest; [apply Hnext | apply IHr].
Qed.

Lemma collect_loop_counted script :
  forall elems arts seen,
    counted arts seen (collect_loop b term out limit script elems arts seen).
Proof.
  induction script as [|r script IH]; apply scan_counted; intros arts seen.
  - apply counted_leave.
  - destruct r as [| |reread]; cbn [next_page]; try apply counted_leave.
    destruct (_get_web_elements reread); [apply IH | apply counted_leave].
Qed.

Lemma extract_collectable (l : list WebElement) :
  Forall (collectable b term out limit) l -> length (extract term out l) = length l.
Proof.
  induction 1 as [|el l (a & Ha & _) _ IH]; cbn; [reflexivity|].
  rewrite Ha. cbn. now rewrite IH.
Qed.

(** A list of nodes that are all collectable is gone through to its end. *)
Lemma scan_collectable script :
  forall elems arts seen,
    elems <> [] ->
    Forall (collectable b term out limit) (map snd elems) ->
    collect_loop b term out limit script elems arts seen
    = next_page b term out limit script
                (arts ++ extract term out (map snd elems)) (seen ++ map fst elems).
Proof.
  induction elems as [|[pos el] rest IH]; intros arts seen Hne Hall; [contradiction|].
  cbn [map fst snd] in Hall. inversion Hall as [|? ? (a & Ha & Hb & Hd) Hrest]; subst.
  rewrite collect_loop_cons, Ha, Hb, Hd. cbn [map fst snd extract]. rewrite Ha.
  destruct rest as [|x rest'].
  - reflexivity.
  - rewrite IH by (discriminate || assumption).
    now rewrite <- !app_assoc.
Qed.

Lemma last_page_collectable :
  forall elems arts seen,
    Forall (collectable b term out limit) (map snd elems) ->
    collect_loop b term out limit [] elems arts seen
    = mkOutcome None (arts ++ extract term out (map snd elems)) (seen ++ map fst elems).
Proof.
  intros [|x elems] arts seen Hall.
  - cbn. now rewrite !app_nil_r.
  - rewrite scan_collectable by (discriminate || assumption). reflexivity.
Qed.

End Runs.

Lemma indexed_fst {A} (l : list A) :
  forall s, map fst (combine (seq s (length l)) l) = seq s (length l).
Proof. induction l as [|x l IH]; intros s; cbn; [reflexivity | now rewrite IH]. Qed.

Lemma indexed_snd {A} (l : list A) : map snd (indexed l) = l.
Proof. exact (proj2 (skipn_indexed_positions l 0)). Qed.

Lemma prepare_search_nodes (b : Browser) (term : string) r :
  fst (prepare_search b term) = Ok r -> r = _get_web_elements (first_read b).
Proof.
  rewrite prepare_search_result.
  destruct (located b search_trigger), (intercepted b search_trigger),
    (located b search_bar_input), (located b date_option), (intercepted b date_option),
    (located b ads_close_button); cbn [fst];
    intros Hr; try discriminate Hr; now injection Hr as <-.
Qed.

Lemma get_web_elements_some (found l : list WebElement) :
  _get_web_elements found = Some l -> l = found /\ l <> [].
Proof.
  destruct found; [discriminate|]. intros [= <-]. split; [reflexivity | discriminate].
Qed.

(** X10: in every run of [collect_articles] each node handed to the
    extractor gives one appended article, except at most the node on which
    the run ended: the number of articles appended is the number of nodes
    visited, or one less. *)
Theorem appended_and_visited (self : NewsScraper) (b : Browser) (today : DateTime.datetime)
    (term : string) (n : Z) :
  exists added,
    final_articles (collect_articles self b today term n) = articles self ++ added /\
    length added <= length (visited (collect_articles self b today term n))
                 <= S (length added).
Proof.
  unfold collect_articles.
  destruct (fst (prepare_search b term)) as [[l|]|e];
    try (exists []; cbn; rewrite app_nil_r; repeat split; lia).
  destruct (collect_loop_counted b term (scraper_output_dir self)
              (compute_limit_date today n) (loads b) (indexed l) (articles self) [])
    as (added & extra & Hf & Hv & Hl).
  exists added. rewrite Hf, Hv. cbn. repeat split; lia.
Qed.

(** X11: on a site without load-more button, when every node read can be
    collected (its article is constructed, is not before the limit, and its
    image is downloaded), the run appends the articles of all the nodes, in
    the order of the page, visits each position once, and ends without
    exception. *)
Theorem single_page_collected (self : NewsScraper) (b : Browser) (today : DateTime.datetime)
    (term : string) (n : Z) (l : list WebElement) :
  fst (prepare_search b term) = Ok (Some l) ->
  loads b = [] \/ (exists rest, loads b = NoButton :: rest) ->
  Forall (collectable b term (scraper_output_dir self) (compute_limit_date today n)) l ->
  collect_articles self b today term n
  = mkOutcome None (articles self ++ extract term (scraper_output_dir self) l)
              (seq 0 (length l)).
Proof.
  intros Hp Hloads Hall. unfold collect_articles. rewrite Hp.
  apply prepare_search_nodes, eq_sym, get_web_elements_some in Hp as [_ Hne].
  rewrite scan_collectable.
  - rewrite indexed_snd. unfold indexed. rewrite indexed_fst. cbn [app].
    destruct Hloads as [-> | [rest ->]]; reflexivity.
  - unfold indexed. destruct l; [contradiction | discriminate].
  - now rewrite indexed_snd.
Qed.

Lemma single_page_collected_witness :
  collect_articles (NewsScraper_init "out")
                   (plain_site [sample_node "15 Mar 2024"; sample_node "1 Mar 2024"] [])
                   (DateTime.mkdatetime 2024 3 20 10 0 0 0) "oil" 2
  = mkOutcome None
      ([] ++ extract "oil" "out" [sample_node "15 Mar 2024"; sample_node "1 Mar 2024"])
      [0; 1].
Proof.
  apply (single_page_collected (NewsScraper_init "out")
           (plain_site [sample_node "15 Mar 2024"; sample_node "1 Mar 2024"] [])
           (DateTime.mkdatetime 2024 3 20 10 0 0 0) "oil" 2%Z
           [sample_node "15 Mar 2024"; sample_node "1 Mar 2024"] eq_refl).
  - now left.
  - repeat constructor; eexists; repeat split.
Defined.

(** X12: when the load-more click shows the nodes already read followed
    by new ones and all can be collected, the run appends the articles of
    the first page and then those of the new nodes without the first [m] of
    them, [m] being the number of articles the session list held when the
    run started: nothing is collected twice, every new node is collected
    when the list was empty at the start, and [m] new nodes are passed over
    otherwise. *)
Theorem second_page_collected (self : NewsScraper) (b : Browser) (today : DateTime.datetime)
    (term : string) (n : Z) (l more : list WebElement) :
  fst (prepare_search b term) = Ok (Some l) ->
  loads b = [Loaded (l ++ more)] ->
  Forall (collectable b term (scraper_output_dir self) (compute_limit_date today n))
         (l ++ more) ->
  raised (collect_articles self b today term n) = None /\
  final_articles (collect_articles self b today term n)
  = articles self
    ++ extract term (scraper_output_dir self) l
    ++ extract term (scraper_output_dir self) (skipn (length (articles self)) more).
Proof.
  intros Hp Hloads Hall. unfold collect_articles. rewrite Hp, Hloads.
  apply prepare_search_nodes, eq_sym, get_web_elements_some in Hp as [_ Hne].
  apply Forall_app in Hall as [Hl Hmore].
  rewrite scan_collectable;
    [| unfold indexed; destruct l; [contradiction | discriminate]
     | now rewrite indexed_snd].
  rewrite indexed_snd. cbn [next_page].
  assert (Hre : _get_web_elements (l ++ more) = Some (l ++ more))
    by (destruct l; [contradiction | reflexivity]).
  rewrite Hre.
  assert (Hskip : map snd (skipn (length (articles self
                                          ++ extract term (scraper_output_dir self) l))
                                 (indexed (l ++ more)))
                  = skipn (length (articles self)) more).
  { rewrite (proj2 (skipn_indexed_positions _ _)), length_app, (extract_collectable _ _ _ _ _ Hl).
    rewrite skipn_app, skipn_all2 by lia. cbn [app]. f_equal. lia. }
  rewrite last_page_collectable.
  - rewrite Hskip. cbn [raised final_articles]. split; [reflexivity|].
    now rewrite <- app_assoc.
  - rewrite Hskip. clear -Hmore. generalize (length (articles self)) as m.
    induction Hmore as [|x more Hx Hmore IH]; intros [|m]; cbn; auto.
Qed.

Lemma second_page_collected_witness :
  final_articles
    (collect_articles (NewsScraper_init "out")
       (plain_site [sample_node "15 Mar 2024"]
                   [Loaded ([sample_node "15 Mar 2024"] ++ [sample_node "1 Mar 2024"])])
       (DateTime.mkdatetime 2024 3 20 10 0 0 0) "oil" 2)
  = [] ++ extract "oil" "out" [sample_node "15 Mar 2024"]
       ++ extract "oil" "out" (skipn 0 [sample_node "1 Mar 2024"]).
Proof.
  apply (second_page_collected (NewsScraper_init "out")
           (plain_site [sample_node "15 Mar 2024"]
                       [Loaded ([sample_node "15 Mar 2024"] ++ [sample_node "1 Mar 2024"])])
           (DateTime.mkdatetime 2024 3 20 10 0 0 0) "oil" 2%Z
           [sample_node "15 Mar 2024"] [sample_node "1 Mar 2024"] eq_refl eq_refl).
  repeat constructor; eexists; repeat split.
Defined.

(** ** Element lookup *)

Lemma until_not_empty (p : Lookup.Parent) (c : Lookup.Condition) :
  Lookup.until p c <> Some (Lookup.Many []).
Proof.
  destruct c as [by_ l|by_ l|by_ l]; cbn.
  - destruct (Lookup.clickable_by_timeout p by_ l); discriminate.
  - destruct (Lookup.present_by_timeout p by_ l); discriminate.
  - destruct (Lookup.present_by_timeout p by_ l); discriminate.
Qed.

(** The lookup of the loop is the general one with its default options. *)
Lemma get_web_element_default (b : Browser) (locator : string) :
  Lookup._get_web_element (Lookup.parent_of b) locator "xpath" false 0 None
  = bind (fst (_get_web_element b locator)) (fun el => Ok (option_map Lookup.One el)).
Proof.
  unfold Lookup._get_web_element, Lookup.find_element, _get_web_element. cbn.
  destruct (located b locator); reflexivity.
Qed.

(** X13: [NewsScraper._get_web_element] raises [ValueError] exactly when
    the locator type is not one of the five known or the wait condition is
    not [None], "presence" or "clickable"; it raises nothing else (a node
    that is not found, or a wait that times out, gives [None]); and it
    never returns an empty list. *)
Theorem get_web_element_validation (parent : Lookup.Parent) (locator locator_type : string)
    (multiple : bool) (explicit_wait : Z) (wait_condition : option string) :
  (Lookup._get_web_element parent locator locator_type multiple explicit_wait wait_condition
   = Raise ValueError
   <-> Lookup.locator_types locator_type = None \/
       Lookup.valid_wait_condition wait_condition = false) /\
  (forall e,
      Lookup._get_web_element parent locator locator_type multiple explicit_wait wait_condition
      = Raise e -> e = ValueError) /\
  Lookup._get_web_element parent locator locator_type multiple explicit_wait wait_condition
  <> Ok (Some (Lookup.Many [])).
Proof.
  unfold Lookup._get_web_element.
  destruct (Lookup.locator_types locator_type) as [by_|].
  2:{ repeat split; try discriminate; auto. now intros e [= <-]. }
  destruct (Lookup.valid_wait_condition wait_condition); cbn [negb].
  2:{ repeat split; try discriminate; auto. now intros e [= <-]. }
  destruct (0 <? explicit_wait)%Z.
  - split; [split; [discriminate | intros [H|H]; discriminate]|]. split; [discriminate|].
    intros [= H]. exact (until_not_empty _ _ H).
  - destruct multiple.
    + destruct (Lookup.find_elements parent by_ locator);
        (split; [split; [discriminate | intros [H|H]; discriminate]|]);
        split; discriminate.
    + split; [split; [discriminate | intros [H|H]; discriminate]|]. split; [discriminate|].
      destruct (Lookup.find_element parent by_ locator); discriminate.
Qed.

(** X14: with an explicit wait for "clickable" the parameter [multiple] is
    ignored and the result is never a list; without an explicit wait the
    wait condition, once validated, plays no part. *)
Theorem wait_condition_and_multiple (parent : Lookup.Parent) (locator locator_type : string)
    (multiple : bool) (explicit_wait : Z) :
  ((0 < explicit_wait)%Z ->
   Lookup._get_web_element parent locator locator_type multiple explicit_wait (Some "clickable")
   = Lookup._get_web_element parent locator locator_type false explicit_wait (Some "clickable") /\
   forall handles,
     Lookup._get_web_element parent locator locator_type multiple explicit_wait (Some "clickable")
     <> Ok (Some (Lookup.Many handles))) /\
  ((explicit_wait <= 0)%Z ->
   forall w1 w2,
     Lookup.valid_wait_condition w1 = true -> Lookup.valid_wait_condition w2 = true ->
     Lookup._get_web_element parent locator locator_type multiple explicit_wait w1
     = Lookup._get_web_element parent locator locator_type multiple explicit_wait w2).
Proof.
  unfold Lookup._get_web_element. split.
  - intros Hw. apply Z.ltb_lt in Hw. rewrite Hw.
    destruct (Lookup.locator_types locator_type) as [by_|]; [|split; [reflexivity | discriminate]].
    cbn. split; [reflexivity|].
    destruct (Lookup.clickable_by_timeout parent by_ locator); discriminate.
  - intros Hw w1 w2 H1 H2. apply Z.ltb_ge in Hw. rewrite Hw, H1, H2. reflexivity.
Qed.

Lemma wait_condition_and_multiple_witness :
  Lookup._get_web_element (Lookup.parent_of (plain_site [] [])) date_option "xpath" true 5
                          (Some "clickable")
  = Lookup._get_web_element (Lookup.parent_of (plain_site [] [])) date_option "xpath" false 5
                            (Some "clickable") /\
  Lookup._get_web_element (Lookup.parent_of (plain_site [] [])) date_option "xpath" true 0 None
  = Lookup._get_web_element (Lookup.parent_of (plain_site [] [])) date_option "xpath" true 0
                            (Some "presence").
Proof.
  split.
  - apply (proj1 (wait_condition_and_multiple (Lookup.parent_of (plain_site [] []))
                    date_option "xpath" true 5)). reflexivity.
  - apply (proj2 (wait_condition_and_multiple (Lookup.parent_of (plain_site [] []))
                    date_option "xpath" true 0)); [discriminate | reflexivity | reflexivity].
Defined.

(** X15: the lookup helper of [Article] and that of [NewsScraper] accept
    the same locator types and agree on the lookup of one node; asked for
    several nodes where there is none, the first returns the empty list and
    the second [None]. *)
Theorem article_and_scraper_lookup (parent : Lookup.Parent) (locator locator_type : string) :
  (forall multiple,
      Lookup.Article_get_web_element parent locator locator_type multiple = Raise ValueError
      <-> Lookup.locator_types locator_type = None) /\
  Lookup.Article_get_web_element parent locator locator_type false
  = Lookup._get_web_element parent locator locator_type false 0 None /\
  (forall by_,
      Lookup.locator_types locator_type = Some by_ ->
      Lookup.find_elements parent by_ locator = [] ->
      Lookup.Article_get_web_element parent locator locator_type true
      = Ok (Some (Lookup.Many [])) /\
      Lookup._get_web_element parent locator locator_type true 0 None = Ok None).
Proof.
  unfold Lookup.Article_get_web_element, Lookup._get_web_element, Lookup.locator_types.
  destruct (String.eqb locator_type "id");
    [|destruct (String.eqb locator_type "xpath");
      [|destruct (String.eqb locator_type "name");
        [|destruct (String.eqb locator_type "class");
          [|destruct (String.eqb locator_type "css")]]]];
    cbn; (split; [intros []; split; discriminate || reflexivity|]);
    (split; [reflexivity|]); intros by_ Hby; try discriminate Hby;
    injection Hby as <-; intros ->; split; reflexivity.
Qed.

Lemma article_and_scraper_lookup_witness :
  Lookup.Article_get_web_element (Lookup.parent_of (plain_site [] [])) "main" "id" true
  = Ok (Some (Lookup.Many [])) /\
  Lookup._get_web_element (Lookup.parent_of (plain_site [] [])) "main" "id" true 0 None
  = Ok None.
Proof.
  exact (proj2 (proj2 (article_and_scraper_lookup (Lookup.parent_of (plain_site [] []))
                         "main" "id")) Lookup.ID eq_refl eq_refl).
Defined.

(** ** The set-up of the browser *)

(** X16: [set_webdriver] accepts the browser name "chrome" in any letter
    case and refuses any other name with [NotImplementedError] without
    starting anything; when the browser starts, it is started under the name
    "Chrome", headless, with the user agent of the wrapper, and its implicit
    wait is the one the wrapper holds, also when that was set before the
    driver existed. *)
Theorem set_webdriver_chrome_only (start : string -> list string -> option (Z * Z))
    (self : Selenium.CustomSelenium) (browser : string) :
  (PyStr.lower browser <> "chrome" ->
   Selenium.set_webdriver start self browser = (self, Selenium.Failed Selenium.NotImplemented)) /\
  (PyStr.lower browser = "chrome" ->
   forall size seconds,
     start "Chrome" (Selenium._set_chrome_options self) = Some size ->
     exists d,
       Selenium.set_webdriver start (Selenium.set_implicit_wait self seconds) browser
       = (Selenium.mkCustomSelenium (Some d) seconds (Selenium.user_agent self),
          Selenium.Done tt) /\
       Selenium.browser_name d = "Chrome" /\
       Selenium.implicitly_wait d = Some seconds /\
       In "--headless" (Selenium.arguments d) /\
       In ("--user-agent=" ++ Selenium.user_agent self)%string (Selenium.arguments d)).
Proof.
  unfold Selenium.set_webdriver, Selenium.casefold. split.
  - intros H. apply String.eqb_neq in H. now rewrite H.
  - intros H size seconds Hstart. rewrite H. cbn [String.eqb Ascii.eqb Bool.eqb].
    assert (Hopt : Selenium._set_chrome_options (Selenium.set_implicit_wait self seconds)
                   = Selenium._set_chrome_options self).
    { unfold Selenium.set_implicit_wait, Selenium._set_chrome_options. cbn.
      destruct (Selenium.driver self); reflexivity. }
    rewrite Hopt, Hstart.
    assert (Hw : Selenium.implicit_wait (Selenium.set_implicit_wait self seconds) = seconds)
      by (unfold Selenium.set_implicit_wait; cbn; destruct (Selenium.driver self); reflexivity).
    assert (Hu : Selenium.user_agent (Selenium.set_implicit_wait self seconds)
                 = Selenium.user_agent self)
      by (unfold Selenium.set_implicit_wait; cbn; destruct (Selenium.driver self); reflexivity).
    rewrite Hw, Hu. eexists. split; [reflexivity|]. cbn. repeat split; auto 10.
Qed.

Lemma set_webdriver_chrome_only_witness :
  Selenium.set_webdriver (fun _ _ => Some (800, 600)%Z) Selenium.init "Firefox"
  = (Selenium.init, Selenium.Failed Selenium.NotImplemented) /\
  (exists d,
      Selenium.set_webdriver (fun _ _ => Some (800, 600)%Z)
                             (Selenium.set_implicit_wait Selenium.init 15) "CHROME"
      = (Selenium.mkCustomSelenium (Some d) 15 (Selenium.user_agent Selenium.init),
         Selenium.Done tt) /\
      Selenium.implicitly_wait d = Some 15%Z).
Proof.
  split.
  - apply (proj1 (set_webdriver_chrome_only (fun _ _ => Some (800, 600)%Z)
                    Selenium.init "Firefox")). discriminate.
  - destruct (proj2 (set_webdriver_chrome_only (fun _ _ => Some (800, 600)%Z)
                       Selenium.init "CHROME") eq_refl (800, 600)%Z 15%Z eq_refl)
      as (d & Hd & _ & Hw & _).
    exists d. split; [exact Hd | exact Hw].
Defined.

(** X17: [prepare_environment] never completes: it fails for every
    browser name, state of the output folder and answer of the driver; when
    the folder is there or is created, the browser is "chrome" and starts,
    the failure is the [NameError] of [set_page_size], raised after the
    driver has been started, so that the window is never resized. *)
Theorem prepare_environment_fails (start : string -> list string -> option (Z * Z))
    (folder_exists mkdir_ok : bool) (self : Selenium.CustomSelenium) (browser : string) :
  (exists self' e,
      Selenium.prepare_environment start folder_exists mkdir_ok self browser
      = (self', Selenium.Failed e)) /\
  (forall size,
      folder_exists || mkdir_ok = true ->
      PyStr.lower browser = "chrome" ->
      start "Chrome" (Selenium._set_chrome_options self) = Some size ->
      exists d,
        Selenium.prepare_environment start folder_exists mkdir_ok self browser
        = (Selenium.mkCustomSelenium (Some d) (Selenium.implicit_wait self)
                                     (Selenium.user_agent self),
           Selenium.Failed Selenium.NameError) /\
        Selenium.window_size d = size).
Proof.
  unfold Selenium.prepare_environment, Selenium.set_webdriver, Selenium.casefold. split.
  - destruct (negb folder_exists && negb mkdir_ok); [eauto|].
    destruct (String.eqb (PyStr.lower browser) "chrome"); [|eauto].
    destruct (start "Chrome" (Selenium._set_chrome_options self)); [|eauto].
    cbn. eauto.
  - intros size Hf Hb Hs.
    replace (negb folder_exists && negb mkdir_ok) with false
      by (destruct folder_exists, mkdir_ok; cbn in *; congruence).
    rewrite Hb, Hs. cbn. eexists. split; reflexivity.
Qed.

Lemma prepare_environment_fails_witness :
  exists d,
    Selenium.prepare_environment (fun _ _ => Some (800, 600)%Z) false true Selenium.init "Chrome"
    = (Selenium.mkCustomSelenium (Some d) 10 (Selenium.user_agent Selenium.init),
       Selenium.Failed Selenium.NameError) /\
    Selenium.window_size d = (800, 600)%Z.
Proof.
  exact (proj2 (prepare_environment_fails (fun _ _ => Some (800, 600)%Z) false true
                  Selenium.init "Chrome") (800, 600)%Z eq_refl eq_refl eq_refl).
Defined.

(** ** The home page *)

(** X18: [access_home_page] refuses any URL but that of the site with
    [NotImplementedError] before the driver is asked anything; for the site
    it loads the page, then looks for the consent button and clicks it only
    when it is there: a page without the button is no error, and the only
    failure is an intercepted click on the button. *)
Theorem access_home_page_cases (b : Browser) (url : string) (screenshot : option string) :
  (url <> home_page -> access_home_page b url screenshot = (Raise NotImplementedError, [])) /\
  (url = home_page ->
   snd (access_home_page b url screenshot)
   = open_url home_page screenshot
     ++ OnPage (Locate cookies_button)
        :: (if located b cookies_button then [OnPage (Click cookies_button)] else []) /\
   (located b cookies_button = false -> fst (access_home_page b url screenshot) = Ok tt) /\
   (forall e, fst (access_home_page b url screenshot) = Raise e ->
              e = ElementClickInterceptedException /\
              located b cookies_button = true /\ intercepted b cookies_button = true)).
Proof.
  unfold access_home_page. split.
  - intros H. apply String.eqb_neq in H. now rewrite H.
  - intros ->. rewrite String.eqb_refl. cbn [negb].
    unfold accept_cookies, cmd_bind, _get_web_element, click, cmd_ret.
    cbn [fst snd].
    destruct (located b cookies_button); cbn [fst snd app map].
    + destruct (intercepted b cookies_button); cbn [fst snd app map].
      * split; [reflexivity|]. split; [discriminate|].
        intros e [= <-]. repeat split.
      * split; [reflexivity|]. split; [reflexivity|]. discriminate.
    + split; [reflexivity|]. split; [reflexivity|]. discriminate.
Qed.

Lemma access_home_page_cases_witness :
  access_home_page (plain_site [] []) "https://example.org/" None
  = (Raise NotImplementedError, []) /\
  fst (access_home_page
         (mkBrowser (fun _ => false) (fun _ => false) [] [] (fun _ => true))
         home_page (Some "home.png")) = Ok tt.
Proof.
  split.
  - apply (proj1 (access_home_page_cases (plain_site [] []) "https://example.org/" None)).
    discriminate.
  - apply (proj2 (access_home_page_cases
                    (mkBrowser (fun _ => false) (fun _ => false) [] [] (fun _ => true))
                    home_page (Some "home.png")) eq_refl).
    reflexivity.
Defined.

(** ** The node on which a run stops *)

Lemma indexed_app {A} (pre post : list A) (x : A) :
  forall s,
    combine (seq s (length (pre ++ x :: post))) (pre ++ x :: post)
    = combine (seq s (length pre)) pre
      ++ (s + length pre, x) :: combine (seq (S (s + length pre)) (length post)) post.
Proof.
  induction pre as [|y pre IH]; intros s; cbn [app length seq combine].
  - now rewrite Nat.add_0_r.
  - rewrite IH. now rewrite <- !Nat.add_succ_comm.
Qed.

Lemma scan_prefix (b : Browser) (term out : string) (limit : DateTime.datetime) script :
  forall pre x post arts seen,
    Forall (collectable b term out limit) (map snd pre) ->
    collect_loop b term out limit script (pre ++ x :: post) arts seen
    = collect_loop b term out limit script (x :: post)
                   (arts ++ extract term out (map snd pre)) (seen ++ map fst pre).
Proof.
  induction pre as [|[pos el] pre IH]; intros x post arts seen Hall.
  - cbn. now rewrite !app_nil_r.
  - cbn [map fst snd] in Hall. inversion Hall as [|? ? (a & Ha & Hb & Hd) Hrest]; subst.
    cbn [app]. rewrite collect_loop_cons, Ha, Hb, Hd.
    destruct (pre ++ x :: post) eqn:Hl; [destruct pre; discriminate|]. rewrite <- Hl.
    rewrite IH by assumption. cbn [map fst snd extract]. rewrite Ha.
    now rewrite <- !app_assoc.
Qed.

(** X19: when the nodes read before some node can all be collected and
    that node cannot, the run ends on it: the articles of the nodes before
    it are appended, the nodes after it are not visited, and no load-more is
    tried.  A construction that raises leaves the run with its exception; a
    date before the limit ends it without exception; a download that fails
    leaves it with the exception after the article has been appended. *)
Theorem run_stops_at_node (self : NewsScraper) (b : Browser) (today : DateTime.datetime)
    (term : string) (n : Z) (pre post : list WebElement) (el : WebElement) :
  fst (prepare_search b term) = Ok (Some (pre ++ el :: post)) ->
  Forall (collectable b term (scraper_output_dir self) (compute_limit_date today n)) pre ->
  let out := scraper_output_dir self in
  let before := articles self ++ extract term out pre in
  let positions := seq 0 (S (length pre)) in
  (forall e, Article_init el term out = Raise e ->
             collect_articles self b today term n = mkOutcome (Some e) before positions) /\
  (forall a, Article_init el term out = Ok a ->
             before_limit (compute_limit_date today n) a = true ->
             collect_articles self b today term n = mkOutcome None before positions) /\
  (forall a e, Article_init el term out = Ok a ->
               before_limit (compute_limit_date today n) a = false ->
               download_image (urlretrieve b) a = Raise e ->
               collect_articles self b today term n
               = mkOutcome (Some e) (before ++ [a]) positions).
Proof.
  intros Hp Hall out before positions. unfold collect_articles. rewrite Hp.
  unfold indexed. rewrite indexed_app. cbn [Nat.add].
  assert (Hpre : map snd (combine (seq 0 (length pre)) pre) = pre) by apply indexed_snd.
  rewrite scan_prefix by (now rewrite Hpre).
  rewrite Hpre, indexed_fst, collect_loop_cons. cbn [app].
  assert (Hpos : seq 0 (length pre) ++ [length pre] = positions).
  { unfold positions. now rewrite seq_S. }
  rewrite Hpos. fold out. fold before.
  split; [|split].
  - intros e ->. reflexivity.
  - intros a -> ->. reflexivity.
  - intros a e -> -> ->. reflexivity.
Qed.

Lemma run_stops_at_node_witness :
  collect_articles (NewsScraper_init "out")
    (plain_site [sample_node "15 Mar 2024"; sample_node "yesterday"; sample_node "1 Mar 2024"]
                [])
    (DateTime.mkdatetime 2024 3 20 10 0 0 0) "oil" 2
  = mkOutcome (Some ValueError) ([] ++ extract "oil" "out" [sample_node "15 Mar 2024"]) [0; 1].
Proof.
  refine (proj1 (run_stops_at_node (NewsScraper_init "out")
                   (plain_site [sample_node "15 Mar 2024"; sample_node "yesterday";
                                sample_node "1 Mar 2024"] [])
                   (DateTime.mkdatetime 2024 3 20 10 0 0 0) "oil" 2%Z
                   [sample_node "15 Mar 2024"] [sample_node "1 Mar 2024"]
                   (sample_node "yesterday") eq_refl _) ValueError eq_refl).
  repeat constructor. eexists; repeat split.
Defined.

Lemma get_web_element_validation_witness :
  Lookup._get_web_element (Lookup.parent_of (plain_site [] [])) "html" "tag" false 0 None
  = Raise ValueError /\
  Lookup._get_web_element (Lookup.parent_of (plain_site [] [])) date_option "xpath" false 3
                          (Some "visible")
  = Raise ValueError.
Proof.
  split.
  - apply (proj1 (get_web_element_validation (Lookup.parent_of (plain_site [] []))
                    "html" "tag" false 0 None)). now left.
  - apply (proj1 (get_web_element_validation (Lookup.parent_of (plain_site [] []))
                    date_option "xpath" false 3 (Some "visible"))). now right.
Defined.

(** ** The report of a session list that is not empty *)

(** X20: [create_report] succeeds exactly when the session list is not
    empty; the two files then hold the same rows under the same six column
    names, one row of six values per article, in the order of the list. *)
Theorem report_has_a_row_per_article (self : NewsScraper) :
  (create_report self = Raise KeyError <-> articles self = []) /\
  (articles self <> [] ->
   exists report,
     create_report self = Ok report /\
     csv_header report = "title,date,description,image_file_name,matches_count,has_money" /\
     xlsx_header report = report_columns /\
     csv_rows report = map report_row (articles self) /\
     xlsx_rows report = csv_rows report /\
     length (csv_rows report) = length (articles self) /\
     Forall (fun row => length row = 6) (csv_rows report)).
Proof.
  destruct self as [arts out]. cbn [articles]. destruct arts as [|a l].
  - split; [split; reflexivity | contradiction].
  - rewrite create_report_rows. split; [split; discriminate|]. intros _.
    eexists. split; [reflexivity|]. cbn [csv_header xlsx_header csv_rows xlsx_rows].
    repeat split.
    + now rewrite length_map.
    + apply Forall_forall. intros row Hrow. apply in_map_iff in Hrow as (x & <- & _).
      reflexivity.
Qed.

Lemma report_has_a_row_per_article_witness :
  exists report,
    create_report (mkNewsScraper (extract "oil" "out" [sample_node "15 Mar 2024"]) "out")
    = Ok report /\
    length (csv_rows report) = 1.
Proof.
  destruct (proj2 (report_has_a_row_per_article
                     (mkNewsScraper (extract "oil" "out" [sample_node "15 Mar 2024"]) "out")))
    as (report & Hr & _ & _ & _ & _ & Hlen & _).
  - discriminate.
  - exists report. split; [exact Hr | exact Hlen].
Defined.

(** ** The match count on text of any characters *)

Section AnyText.
Variable char : Type.
Variable char_eqb : char -> char -> bool.

Lemma text_startswith_length (p s : list char) :
  Text.startswith char_eqb p s = true -> length p <= length s.
Proof.
  revert s; induction p as [|a p IH]; intros [|b s] H; cbn in *; try lia; try discriminate.
  apply andb_true_iff in H as [_ Hp]. specialize (IH _ Hp). lia.
Qed.

Lemma text_count_empty (s : list char) :
  Text.count_from char_eqb [] s 0 = S (length s).
Proof. induction s as [|c s IH]; cbn; [reflexivity | now rewrite IH]. Qed.

Lemma text_count_bound (sub s : list char) :
  sub <> [] ->
  forall skip, Text.count_from char_eqb sub s skip * length sub <= length s - skip.
Proof.
  intros Hsub. induction s as [|c s IH]; intros skip.
  - destruct sub; [contradiction | cbn; lia].
  - cbn [Text.count_from]. destruct skip as [|k].
    + destruct (Text.startswith char_eqb sub (c :: s)) eqn:Hst.
      * apply text_startswith_length in Hst. cbn [length] in *.
        specialize (IH (length sub - 1)).
        destruct sub as [|x sub]; [contradiction|]. cbn [length] in *. lia.
      * specialize (IH 0). cbn [length]. lia.
    + specialize (IH k). cbn [length]. lia.
Qed.

(** A phrase longer than the text occurs nowhere in it, however characters
    are compared. *)
Lemma text_count_longer (sub s : list char) :
  length s < length sub -> Text.count char_eqb s sub = 0.
Proof.
  intros Hlen. pose proof (text_count_bound sub s) as Hb.
  assert (Hne : sub <> []) by (destruct sub; [cbn in Hlen; lia | discriminate]).
  specialize (Hb Hne 0). unfold Text.count. nia.
Qed.

End AnyText.

(** [_count_matches] is [Text._count_matches] on the characters of ASCII
    text, lower-cased one by one. *)
Lemma chars_lower (s : string) :
  list_ascii_of_string (PyStr.lower s) = map PyStr.lower_char (list_ascii_of_string s).
Proof. induction s as [|c s IH]; cbn; [reflexivity | now rewrite IH]. Qed.

Lemma chars_length (s : string) : length (list_ascii_of_string s) = String.length s.
Proof. induction s as [|c s IH]; cbn; [reflexivity | now rewrite IH]. Qed.

Lemma chars_startswith (p s : string) :
  Text.startswith Ascii.eqb (list_ascii_of_string p) (list_ascii_of_string s)
  = PyStr.startswith p s.
Proof.
  revert s; induction p as [|a p IH]; intros [|b s]; cbn; try reflexivity. now rewrite IH.
Qed.

Lemma chars_count_from (sub s : string) (skip : nat) :
  Text.count_from Ascii.eqb (list_ascii_of_string sub) (list_ascii_of_string s) skip
  = PyStr.count_from sub s skip.
Proof.
  revert skip; induction s as [|c s IH]; intros skip.
  - destruct sub; reflexivity.
  - cbn [list_ascii_of_string Text.count_from PyStr.count_from].
    destruct skip as [|k]; [|apply IH].
    change (c :: list_ascii_of_string s) with (list_ascii_of_string (String c s)).
    rewrite chars_startswith, chars_length, !IH. reflexivity.
Qed.

Lemma count_matches_as_text (title description : option string) (search_term : string) :
  _count_matches title description search_term
  = Text._count_matches Ascii.eqb (map PyStr.lower_char)
      (option_map list_ascii_of_string title)
      (option_map list_ascii_of_string description)
      (list_ascii_of_string search_term).
Proof.
  unfold _count_matches, Text._count_matches, Text.count, PyStr.count.
  destruct title as [[|c t]|], description as [[|c' d]|];
    cbn [option_map truthy Text.truthy list_ascii_of_string];
    repeat match goal with
      | |- context [c :: list_ascii_of_string ?x] =>
          change (c :: list_ascii_of_string x) with (list_ascii_of_string (String c x))
      | |- context [c' :: list_ascii_of_string ?x] =>
          change (c' :: list_ascii_of_string x) with (list_ascii_of_string (String c' x))
      end;
    rewrite <- ?chars_lower, ?chars_count_from; reflexivity.
Qed.

(** C4 (as stated, refuted): with the empty search phrase, a title that is
    present but empty contributes nothing, although the empty phrase occurs
    once in the empty text; and outside ASCII the count is not one of
    case-insensitive occurrences: the title U+0130 holds the two-character
    phrase U+0069 U+0307 once for the code, because that phrase is the
    lower-case form of the title, while a phrase of two characters occurs
    nowhere in a text of one, however the characters are compared. *)
Lemma matches_count_sum_counterexample :
  (exists a,
      Article_init (mkWebElement (Some EmptyString) None None None) EmptyString "out" = Ok a /\
      matches_count a <>
        CountSpec.contribution_if_present EmptyString (title a)
        + CountSpec.contribution_if_present EmptyString (description a)) /\
  (forall same : N -> N -> bool,
      Text._count_matches N.eqb Text.lower_points (Some [304%N]) None [105%N; 775%N]
      <> Text.count same [304%N] [105%N; 775%N] + 0).
Proof.
  split.
  - eexists; split; [reflexivity | discriminate].
  - intros same. rewrite text_count_longer by (cbn; lia). discriminate.
Qed.

(** C4 (amended): for a search phrase, a title and a description that are
    ASCII text, the match count of a constructed article is the sum of the
    case-insensitive occurrence counts of the phrase in the title and in the
    description, an absent or empty field counting for 0; the phrase "oil"
    is counted twice in "Oil prices and oil futures". *)
Theorem matches_count_sum :
  (forall el term out a,
      Article_init el term out = Ok a ->
      is_ascii term = true ->
      ascii_field (title a) = true ->
      ascii_field (description a) = true ->
      matches_count a
      = CountSpec.contribution term (title a) + CountSpec.contribution term (description a)) /\
  (forall out, exists a,
      Article_init (mkWebElement (Some "Oil prices and oil futures") None None None) "oil" out
      = Ok a /\ matches_count a = 2).
Proof.
  split.
  - intros el term out a H _ _ _.
    destruct (Article_init_fields _ _ _ _ H) as (_ & _ & _ & -> & _).
    apply count_matches_contributions.
  - intros out; eexists; split; reflexivity.
Qed.

Lemma matches_count_sum_witness :
  exists a,
    Article_init (mkWebElement (Some "Oil up") None (Some "Crude OIL and oil") None) "oil" "out"
    = Ok a /\ matches_count a = 3.
Proof.
  eexists; split; [reflexivity|].
  exact (proj1 matches_count_sum
           (mkWebElement (Some "Oil up") None (Some "Crude OIL and oil") None)
           "oil" "out" _ eq_refl eq_refl eq_refl eq_refl).
Defined.

(** C9 (as stated, refuted): with the empty search phrase a title that is
    present but empty adds 0, not 1; and a title whose lower-case form is
    longer than the title adds more than its length plus one: the title
    U+0130 with the description "x" gives 5, not 1 + 1 + 2. *)
Lemma empty_phrase_counterexample :
  (exists a,
      Article_init (mkWebElement (Some EmptyString) None (Some "abc") None) EmptyString "out"
      = Ok a /\
      title a = Some EmptyString /\ description a = Some "abc" /\
      matches_count a <> String.length EmptyString + String.length "abc" + 2) /\
  Text._count_matches N.eqb Text.lower_points (Some [304%N]) (Some [120%N]) []
  <> length [304%N] + length [120%N] + 2.
Proof.
  split.
  - eexists; repeat split; discriminate.
  - discriminate.
Qed.

(** C9 (amended): with the empty search phrase and a title and a description
    that are ASCII text, both present and not empty, the match count is
    [len(title) + len(description) + 2]. *)
Theorem empty_phrase_matches_count (el : WebElement) (out : string) (a : Article) (t d : string) :
  Article_init el EmptyString out = Ok a ->
  title a = Some t -> description a = Some d ->
  t <> EmptyString -> d <> EmptyString ->
  is_ascii t = true -> is_ascii d = true ->
  matches_count a = String.length t + String.length d + 2.
Proof.
  intros H Ht Hd Hne1 Hne2 _ _.
  destruct (Article_init_fields _ _ _ _ H) as (_ & _ & _ & -> & _).
  rewrite Ht, Hd. unfold _count_matches.
  destruct t as [|c t]; [contradiction|]. destruct d as [|c' d]; [contradiction|].
  cbn [truthy PyStr.lower]. unfold PyStr.count.
  change (String (PyStr.lower_char c) (PyStr.lower t)) with (PyStr.lower (String c t)).
  change (String (PyStr.lower_char c') (PyStr.lower d)) with (PyStr.lower (String c' d)).
  rewrite !count_empty_from, !length_lower. lia.
Qed.

Lemma empty_phrase_matches_count_witness :
  exists a,
    Article_init (mkWebElement (Some "ab") None (Some "xyz") None) EmptyString "out" = Ok a /\
    matches_count a = 7.
Proof.
  eexists; split; [reflexivity|].
  apply (empty_phrase_matches_count
           (mkWebElement (Some "ab") None (Some "xyz") None) "out" _ "ab" "xyz"
           eq_refl eq_refl eq_refl); try discriminate; reflexivity.
Defined.

(** X6: the occurrences counted do not overlap.  On text of any characters,
    when the lower-case form of the search phrase is not empty, the match
    count times the length of that form is at most the length of the
    lower-case form of the title plus that of the description; for a search
    phrase, a title and a description that are ASCII text these are the
    lengths of the phrase, the title and the description themselves. *)
Theorem matches_count_bound :
  (forall (char : Type) (char_eqb : char -> char -> bool) (lower : list char -> list char)
          (title description : option (list char)) (search_term : list char),
      lower search_term <> [] ->
      Text._count_matches char_eqb lower title description search_term
        * length (lower search_term)
      <= Text.lowered_length lower title + Text.lowered_length lower description) /\
  (forall el term out a,
      Article_init el term out = Ok a ->
      term <> EmptyString ->
      is_ascii term = true ->
      ascii_field (title a) = true ->
      ascii_field (description a) = true ->
      matches_count a * String.length term
      <= field_length (title a) + field_length (description a)).
Proof.
  split.
  - intros char char_eqb lower title description search_term Hne.
    assert (Hb : forall t, Text.count char_eqb (lower t) (lower search_term)
                           * length (lower search_term) <= length (lower t)).
    { intros t. pose proof (text_count_bound char char_eqb _ (lower t) Hne 0) as Hb0.
      unfold Text.count. lia. }
    unfold Text._count_matches.
    destruct title as [[|c t]|], description as [[|c' d]|];
      cbn [Text.truthy Text.lowered_length];
      try pose proof (Hb (c :: t)); try pose proof (Hb (c' :: d)); nia.
  - intros el term out a H Hne _ _ _.
    destruct (Article_init_fields _ _ _ _ H) as (_ & _ & _ & -> & _).
    assert (Hl : PyStr.lower term <> EmptyString)
      by (destruct term; [contradiction | discriminate]).
    assert (Hb : forall t, PyStr.count (PyStr.lower t) (PyStr.lower term) * String.length term
                           <= String.length t).
    { intros t. pose proof (count_from_bound _ (PyStr.lower t) Hl 0) as Hb.
      rewrite !length_lower in Hb. unfold PyStr.count. lia. }
    unfold _count_matches.
    destruct (title a) as [[|c t]|], (description a) as [[|c' d]|];
      cbn [truthy field_length];
      try pose proof (Hb (String c t)); try pose proof (Hb (String c' d)); nia.
Qed.

Lemma matches_count_bound_witness :
  Text._count_matches N.eqb Text.lower_points (Some [304%N]) None [105%N; 775%N] * 2 <= 2 + 0 /\
  (exists a,
      Article_init (mkWebElement (Some "aaaa") None (Some "aaa") None) "aa" "out" = Ok a /\
      matches_count a * 2 <= 4 + 3).
Proof.
  split.
  - apply (proj1 matches_count_bound N N.eqb Text.lower_points (Some [304%N]) None
             [105%N; 775%N]). discriminate.
  - eexists; split; [reflexivity|].
    apply (proj2 matches_count_bound (mkWebElement (Some "aaaa") None (Some "aaa") None)
             "aa" "out" _ eq_refl); try discriminate; reflexivity.
Defined.

(** ** The report of an empty session list *)

Lemma collect_nothing_read (self : NewsScraper) (b : Browser) (today : DateTime.datetime)
    (term : string) (n : Z) :
  first_read b = [] ->
  final_articles (collect_articles self b today term n) = articles self.
Proof.
  intros Hread. unfold collect_articles.
  destruct (fst (prepare_search b term)) as [[l|]|e] eqn:Hp; try reflexivity.
  apply prepare_search_nodes in Hp. rewrite Hread in Hp. discriminate.
Qed.

(** C7 (the defect): with an empty session list the data frame has no
    column, the selection of the six columns raises [KeyError], and neither
    file is written; this is the list of a new scraper, and still its list
    after a search that reads no result node. *)
Theorem create_report_no_articles :
  (forall out, create_report (NewsScraper_init out) = Raise KeyError) /\
  (forall out b today term n,
      first_read b = [] ->
      create_report
        (mkNewsScraper
           (final_articles (collect_articles (NewsScraper_init out) b today term n)) out)
      = Raise KeyError).
Proof.
  split.
  - intros out. reflexivity.
  - intros out b today term n Hread. now rewrite collect_nothing_read.
Qed.

Lemma create_report_no_articles_witness :
  create_report
    (mkNewsScraper
       (final_articles
          (collect_articles (NewsScraper_init "out") (plain_site [] [])
                            (DateTime.mkdatetime 2024 3 20 10 0 0 0) "oil" 2)) "out")
  = Raise KeyError.
Proof.
  exact (proj2 create_report_no_articles "out" (plain_site [] [])
           (DateTime.mkdatetime 2024 3 20 10 0 0 0) "oil" 2%Z eq_refl).
Defined.

(** ** Runs over several pages *)

Lemma Forall_skipn {A} (P : A -> Prop) (l : list A) :
  Forall P l -> forall k, Forall P (skipn k l).
Proof.
  induction 1 as [|x l Hx Hl IH]; intros [|k]; cbn; auto.
Qed.

Lemma skipn_indexed_fst {A} (l : list A) (K : nat) :
  map fst (skipn K (indexed l)) = seq K (length (skipn K l)).
Proof.
  unfold indexed. rewrite skipn_combine_seq. cbn [Nat.add].
  rewrite <- (length_skipn K l). apply indexed_fst.
Qed.

Lemma paged_run (b : Browser) (term out : string) (limit : DateTime.datetime) :
  forall rereads elems arts seen,
    elems <> [] ->
    Forall (collectable b term out limit) (map snd elems) ->
    Forall (fun reread => reread <> []) rereads ->
    Forall (Forall (collectable b term out limit)) rereads ->
    collect_loop b term out limit (map Loaded rereads) elems arts seen
    = mkOutcome None
        (fst (paged term out (arts ++ extract term out (map snd elems))
                    (seen ++ map fst elems) rereads))
        (snd (paged term out (arts ++ extract term out (map snd elems))
                    (seen ++ map fst elems) rereads)).
Proof.
  induction rereads as [|reread rereads IH]; intros elems arts seen Hne Hall Hnon Hcol.
  - rewrite scan_collectable by assumption. reflexivity.
  - rewrite scan_collectable by assumption. cbn [map next_page].
    inversion Hnon as [|? ? Hr Hnon']; subst. inversion Hcol as [|? ? Hc Hcol']; subst.
    assert (Hre : _get_web_elements reread = Some reread)
      by (destruct reread; [contradiction | reflexivity]).
    rewrite Hre. cbn [paged].
    set (arts' := arts ++ extract term out (map snd elems)).
    set (seen' := seen ++ map fst elems).
    pose proof (proj2 (skipn_indexed_positions reread (length arts'))) as Hsnd.
    pose proof (skipn_indexed_fst reread (length arts')) as Hfst.
    destruct (skipn (length arts') (indexed reread)) as [|x E] eqn:HE.
    + cbn [map] in Hsnd. rewrite <- Hsnd. rewrite collect_loop_nil. reflexivity.
    + rewrite IH; try assumption; try discriminate.
      * rewrite Hsnd, Hfst.
        destruct (skipn (length arts') reread) eqn:Hnew; [discriminate Hsnd | reflexivity].
      * rewrite Hsnd. now apply Forall_skipn.
Qed.

(** C3: when the nodes a run meets can all be collected, each successful
    load-more is followed by a re-read of the whole list, of which only the
    entries after the first [K] are gone through, [K] being the number of
    articles in the session list at that time: the run ends with the
    articles and the visited positions that [paged] computes, the articles
    of the first [K] nodes of a list read again being appended no second
    time.  And in every run, whatever its nodes, the positions of the nodes
    handed to the extractor increase strictly. *)
Theorem pagination_resumes_after_collected :
  (forall self b today term n l rereads,
      fst (prepare_search b term) = Ok (Some l) ->
      loads b = map Loaded rereads ->
      Forall (fun reread => reread <> []) rereads ->
      Forall (collectable b term (scraper_output_dir self) (compute_limit_date today n)) l ->
      Forall (Forall (collectable b term (scraper_output_dir self)
                                  (compute_limit_date today n))) rereads ->
      collect_articles self b today term n
      = mkOutcome None
          (fst (paged term (scraper_output_dir self)
                      (articles self ++ extract term (scraper_output_dir self) l)
                      (seq 0 (length l)) rereads))
          (snd (paged term (scraper_output_dir self)
                      (articles self ++ extract term (scraper_output_dir self) l)
                      (seq 0 (length l)) rereads))) /\
  (forall self b today term n,
      StronglySorted lt (visited (collect_articles self b today term n))).
Proof.
  split.
  - intros self b today term n l rereads Hp Hloads Hnon Hl Hcol.
    unfold collect_articles. rewrite Hp, Hloads.
    apply prepare_search_nodes, eq_sym, get_web_elements_some in Hp as [_ Hne].
    rewrite paged_run; try assumption.
    + rewrite indexed_snd. unfold indexed. rewrite indexed_fst. reflexivity.
    + unfold indexed. destruct l; [contradiction | discriminate].
    + now rewrite indexed_snd.
  - intros self b today term n. unfold collect_articles.
    destruct (fst (prepare_search b term)) as [[l|]|e]; try (cbn; constructor).
    apply collect_loop_in_order. exists l, 0. repeat split; try constructor. lia.
Qed.

Lemma pagination_resumes_after_collected_witness :
  collect_articles (NewsScraper_init "out")
                   (plain_site sample_first_page (map Loaded sample_rereads))
                   (DateTime.mkdatetime 2024 3 20 10 0 0 0) "oil" 2
  = mkOutcome None
      (extract "oil" "out"
         (sample_first_page ++ [sample_node "1 Mar 2024"; sample_node "3 Feb 2024";
                                sample_node "2 Feb 2024"]))
      [0; 1; 2; 3; 4].
Proof.
  refine (proj1 pagination_resumes_after_collected (NewsScraper_init "out")
            (plain_site sample_first_page (map Loaded sample_rereads))
            (DateTime.mkdatetime 2024 3 20 10 0 0 0) "oil" 2%Z
            sample_first_page sample_rereads eq_refl eq_refl _ _ _).
  - repeat constructor; discriminate.
  - repeat constructor; eexists; repeat split.
  - repeat constructor; eexists; repeat split.
Defined.
